(** * ASQESpectrometer (libspec.py): calibration loading and spectral pipeline

    A shallow embedding of [class ASQESpectrometer].  The native driver
    ([self.lib], loaded through ctypes) is an external collaborator: it is
    modelled as a deterministic oracle answering each call from the history
    of the calls made so far.  Methods are state transformers over the
    attributes of [self] and that history; Python exceptions are an explicit
    outcome.  numpy's float64 and Python's float are IEEE binary64, which is
    what Rocq's primitive floats compute with. *)

From Stdlib Require Import ZArith Lia Bool Strings.Byte.
From Stdlib Require Import Uint63 PrimFloat.
From Stdlib Require SpecFloat FloatOps FloatAxioms.
From stdpp Require Import base list.

Local Open Scope Z_scope.

(** ** ctypes integer types *)

Definition c_uint8 (z : Z) : Z := z mod 2 ^ 8.
Definition c_uint16 (z : Z) : Z := z mod 2 ^ 16.
Definition c_uint32 (z : Z) : Z := z mod 2 ^ 32.

(** ** Floats *)

(** Conversion of a Python int to float: the nearest binary64, ties to
    even, so exact for [|z| <= 2^53].  Below [2^63] in magnitude this is what
    the primitive conversion of a 63-bit integer computes; beyond, the
    rounding is the specification's.  An int that rounds past the largest
    float gives an infinity here. *)
Definition float_of_Z (z : Z) : float :=
  if Z.abs z <? 2 ^ 63 then
    if z <? 0 then PrimFloat.opp (PrimFloat.of_uint63 (Uint63.of_Z (- z)))
    else PrimFloat.of_uint63 (Uint63.of_Z z)
  else FloatOps.SF2Prim (SpecFloat.binary_normalize FloatOps.prec FloatOps.emax z 0 false).

(** The conversion Python applies to the int of [int * float]: [None]
    stands for [OverflowError: int too large to convert to float], raised
    when the nearest float is not finite, that is from [2^1024 - 2^970] on
    in magnitude. *)
Definition int_as_float (z : Z) : option float :=
  let x := float_of_Z z in
  if PrimFloat.is_infinity x then None else Some x.

(** ** Python sequences *)

(** [l[lo:hi]] for [0 <= lo <= hi]: out-of-range bounds are clamped, a slice
    never raises. *)
Definition slice {A} (lo hi : Z) (l : list A) : list A :=
  take (Z.to_nat (hi - lo)) (drop (Z.to_nat lo) l).

Fixpoint startswith (sub data : list byte) : bool :=
  match sub, data with
  | [], _ => true
  | _ :: _, [] => false
  | a :: sub', b :: data' => Byte.eqb a b && startswith sub' data'
  end.

Fixpoint find_from (i : Z) (sub data : list byte) : Z :=
  if startswith sub data then i
  else match data with
       | [] => -1
       | _ :: data' => find_from (i + 1) sub data'
       end.

(** [data.find(sub)]: lowest index where [sub] occurs in [data], or [-1]. *)
Definition find (data sub : list byte) : Z := find_from 0 sub data.

Definition marker : list byte := [xff; xff].

(** ** [bytes.decode("utf-8")] *)

Definition ord (b : byte) : Z := Z.of_N (Byte.to_N b).

Definition between (lo hi : Z) (b : byte) : bool := (lo <=? ord b) && (ord b <=? hi).

(** Payload bits of a continuation byte [10xxxxxx]. *)
Definition low6 (b : byte) : Z := Z.land (ord b) 63.

(** Strict decoding: [None] stands for [UnicodeDecodeError].  Overlong forms,
    surrogates and code points above U+10FFFF are rejected through the range
    allowed for the second byte. *)
Fixpoint utf8_decode (bs : list byte) : option (list Z) :=
  match bs with
  | [] => Some []
  | b0 :: r0 =>
      let c0 := ord b0 in
      if c0 <? 128 then cons c0 <$> utf8_decode r0
      else if between 194 223 b0 then
        match r0 with
        | b1 :: r1 =>
            if between 128 191 b1
            then cons (Z.lor (Z.shiftl (Z.land c0 31) 6) (low6 b1)) <$> utf8_decode r1
            else None
        | _ => None
        end
      else if between 224 239 b0 then
        match r0 with
        | b1 :: b2 :: r2 =>
            let lo := if c0 =? 224 then 160 else 128 in
            let hi := if c0 =? 237 then 159 else 191 in
            if between lo hi b1 && between 128 191 b2
            then cons (Z.lor (Z.shiftl (Z.land c0 15) 12)
                         (Z.lor (Z.shiftl (low6 b1) 6) (low6 b2))) <$> utf8_decode r2
            else None
        | _ => None
        end
      else if between 240 244 b0 then
        match r0 with
        | b1 :: b2 :: b3 :: r3 =>
            let lo := if c0 =? 240 then 144 else 128 in
            let hi := if c0 =? 244 then 143 else 191 in
            if between lo hi b1 && between 128 191 b2 && between 128 191 b3
            then cons (Z.lor (Z.shiftl (Z.land c0 7) 18)
                         (Z.lor (Z.shiftl (low6 b1) 12)
                            (Z.lor (Z.shiftl (low6 b2) 6) (low6 b3)))) <$> utf8_decode r3
            else None
        | _ => None
        end
      else None
  end.

(** ** [str.splitlines()] *)

(** The line boundaries of [str.splitlines]: LF, VT, FF, CR, FS, GS, RS, NEL,
    LS and PS. *)
Definition is_linebreak (c : Z) : bool :=
  (c =? 10) || (c =? 11) || (c =? 12) || (c =? 13) || (c =? 28) || (c =? 29)
  || (c =? 30) || (c =? 133) || (c =? 8232) || (c =? 8233).

(** [cur] holds, reversed, the characters of the line being read.  CR LF is
    one boundary; text after the last boundary is a line only when it is not
    empty. *)
Fixpoint splitlines_from (cur : list Z) (s : list Z) : list (list Z) :=
  match s with
  | [] => match cur with [] => [] | _ => [rev cur] end
  | c :: rest =>
      if is_linebreak c then
        rev cur ::
          match rest with
          | c' :: rest' =>
              if (c =? 13) && (c' =? 10) then splitlines_from [] rest'
              else splitlines_from [] rest
          | [] => splitlines_from [] rest
          end
      else splitlines_from (c :: cur) rest
  end.

Definition splitlines (s : list Z) : list (list Z) := splitlines_from [] s.

(** ** numpy *)

Definition sum_Z (l : list Z) : Z := foldr Z.add 0 l.

(** [np.mean] of a list of Python ints: the float64 sum over the count.  For
    16-bit samples every partial sum is an integer below [2^53], so the sum
    is exact in whichever order numpy adds. *)
Definition np_mean (l : list Z) : float :=
  PrimFloat.div (float_of_Z (sum_Z l)) (float_of_Z (Z.of_nat (length l))).

(** An in-place [data op= other] on a one-dimensional array: [other] is used
    elementwise when the lengths agree and broadcast when it has one
    element; [None] stands for the broadcasting [ValueError]. *)
Definition np_inplace (op : float -> float -> float) (data other : list float)
    : option (list float) :=
  if (length other =? length data)%nat then Some (zip_with op data other)
  else match other with
       | [c] => Some (map (fun x => op x c) data)
       | _ => None
       end.

(** The arithmetic of [subtract_background] on a captured buffer. *)
Definition background (data : list Z) : float :=
  let devd := np_mean (slice 15 31 data) in
  let devd2 := np_mean (slice 3686 3692 data) in
  PrimFloat.div (PrimFloat.add devd devd2) 2%float.

Definition subtract_background_of (data : list Z) : list float :=
  map (fun x => PrimFloat.sub (float_of_Z x) (background data)) (slice 32 3685 data).

(** ** The driver *)

(** One entry per call into the native library (arguments as converted by
    the declared argtypes) or to [time.sleep] (in milliseconds). *)
Inductive event : Type :=
  | ConnectToDevice
  | DisconnectDevice
  | SetAcquisitionParameters (scans blank_scans mode exposure : Z)
  | SetFrameFormat (start_element end_element reduction : Z)
  | TriggerAcquisition
  | GetStatus
  | GetFrame (buffer_len : nat) (max_len : Z)
  | ReadFlash (buffer_len : nat) (offset size : Z)
  | Sleep (millis : Z).

Definition history := list event.

Definition is_trigger (e : event) : bool :=
  match e with TriggerAcquisition => true | _ => false end.
Definition is_poll (e : event) : bool :=
  match e with GetStatus => true | _ => false end.
Definition is_flash_read (e : event) : bool :=
  match e with ReadFlash _ _ _ => true | _ => false end.

(** Number of logged calls of one kind. *)
Definition calls (kind : event -> bool) (h : history) : nat :=
  length (List.filter kind h).

(** What the library answers to a call, given the calls made before it: the
    returned status and what it stores through its out-pointers. *)
Record driver : Type := {
  connectToDevice : history -> Z;
  setAcquisitionParameters : history -> Z -> Z -> Z -> Z -> Z;
  setFrameFormat : history -> Z -> Z -> Z -> Z * Z;
  getStatus : history -> Z * (Z * Z);
  getFrame : history -> Z -> Z * list Z;
  triggerAcquisition : history -> Z;
  readFlash : history -> Z -> Z -> Z * list byte
}.

(** A ctypes array of [n] elements, zero-initialised, after the library has
    stored [written] from its start. *)
Definition fill {A} (zero : A) (n : nat) (written : list A) : list A :=
  take n (written ++ replicate n zero).

(** ** Exceptions and outcomes *)

Inductive value_error : Type :=
  | FailedToParseBckAT
  | CouldNotConvertStringToFloat
  | CouldNotBroadcast.

Inductive exn : Type :=
  | ConnectionError (code : Z)
  | RuntimeError (code : Z)
  | UnicodeDecodeError
  | ValueError (why : value_error)
  | TypeError
  | OverflowError.

Inductive outcome (A : Type) : Type :=
  | Ret (a : A)
  | Raise (e : exn)
  | Diverge.
Arguments Ret {A} a.
Arguments Raise {A} e.
Arguments Diverge {A}.

(** ** The object *)

Record ASQESpectrometer : Type := {
  num_of_scans : Z;
  num_of_blank_scans : Z;
  exposure_time : Z;
  scan_mode : Z;
  num_of_start_element : Z;
  num_of_end_element : Z;
  reduction_mode : Z;
  _calibration_data_loaded : bool;
  bck_aT : option float;
  wavelength : option (list float);
  norm_coef : option (list float);
  power_coef : option (list float)
}.

(** Attribute values set by [__init__] before it connects. *)
Definition init_attributes : ASQESpectrometer := {|
  num_of_scans := 1;
  num_of_blank_scans := 0;
  exposure_time := 1000;
  scan_mode := 3;
  num_of_start_element := 0;
  num_of_end_element := 3647;
  reduction_mode := 0;
  _calibration_data_loaded := false;
  bck_aT := None;
  wavelength := None;
  norm_coef := None;
  power_coef := None
|}.

Definition set_bck_aT (v : float) (s : ASQESpectrometer) : ASQESpectrometer := {|
  num_of_scans := num_of_scans s;
  num_of_blank_scans := num_of_blank_scans s;
  exposure_time := exposure_time s;
  scan_mode := scan_mode s;
  num_of_start_element := num_of_start_element s;
  num_of_end_element := num_of_end_element s;
  reduction_mode := reduction_mode s;
  _calibration_data_loaded := _calibration_data_loaded s;
  bck_aT := Some v;
  wavelength := wavelength s;
  norm_coef := norm_coef s;
  power_coef := power_coef s
|}.

Definition set_wavelength (v : list float) (s : ASQESpectrometer) : ASQESpectrometer := {|
  num_of_scans := num_of_scans s;
  num_of_blank_scans := num_of_blank_scans s;
  exposure_time := exposure_time s;
  scan_mode := scan_mode s;
  num_of_start_element := num_of_start_element s;
  num_of_end_element := num_of_end_element s;
  reduction_mode := reduction_mode s;
  _calibration_data_loaded := _calibration_data_loaded s;
  bck_aT := bck_aT s;
  wavelength := Some v;
  norm_coef := norm_coef s;
  power_coef := power_coef s
|}.

Definition set_norm_coef (v : list float) (s : ASQESpectrometer) : ASQESpectrometer := {|
  num_of_scans := num_of_scans s;
  num_of_blank_scans := num_of_blank_scans s;
  exposure_time := exposure_time s;
  scan_mode := scan_mode s;
  num_of_start_element := num_of_start_element s;
  num_of_end_element := num_of_end_element s;
  reduction_mode := reduction_mode s;
  _calibration_data_loaded := _calibration_data_loaded s;
  bck_aT := bck_aT s;
  wavelength := wavelength s;
  norm_coef := Some v;
  power_coef := power_coef s
|}.

Definition set_power_coef (v : list float) (s : ASQESpectrometer) : ASQESpectrometer := {|
  num_of_scans := num_of_scans s;
  num_of_blank_scans := num_of_blank_scans s;
  exposure_time := exposure_time s;
  scan_mode := scan_mode s;
  num_of_start_element := num_of_start_element s;
  num_of_end_element := num_of_end_element s;
  reduction_mode := reduction_mode s;
  _calibration_data_loaded := _calibration_data_loaded s;
  bck_aT := bck_aT s;
  wavelength := wavelength s;
  norm_coef := norm_coef s;
  power_coef := Some v
|}.

Definition set_calibration_data_loaded (v : bool) (s : ASQESpectrometer) : ASQESpectrometer := {|
  num_of_scans := num_of_scans s;
  num_of_blank_scans := num_of_blank_scans s;
  exposure_time := exposure_time s;
  scan_mode := scan_mode s;
  num_of_start_element := num_of_start_element s;
  num_of_end_element := num_of_end_element s;
  reduction_mode := reduction_mode s;
  _calibration_data_loaded := v;
  bck_aT := bck_aT s;
  wavelength := wavelength s;
  norm_coef := norm_coef s;
  power_coef := power_coef s
|}.

(** ** The method monad: attributes of [self] and the call history are
    threaded through; both survive a raised exception. *)

Definition M (A : Type) : Type :=
  ASQESpectrometer -> history -> outcome A * ASQESpectrometer * history.

Definition ret {A} (a : A) : M A := fun s h => (Ret a, s, h).
Definition raise {A} (e : exn) : M A := fun s h => (Raise e, s, h).
Definition diverge {A} : M A := fun s h => (Diverge, s, h).
Definition bind {A B} (m : M A) (k : A -> M B) : M B :=
  fun s h =>
    match m s h with
    | (Ret a, s', h') => k a s' h'
    | (Raise e, s', h') => (Raise e, s', h')
    | (Diverge, s', h') => (Diverge, s', h')
    end.
Definition getattr {A} (f : ASQESpectrometer -> A) : M A := fun s h => (Ret (f s), s, h).
Definition setattr (f : ASQESpectrometer -> ASQESpectrometer) : M unit :=
  fun s h => (Ret tt, f s, h).
(** A foreign call: answered from the history so far, then logged. *)
Definition call {A} (e : event) (answer : history -> A) : M A :=
  fun s h => (Ret (answer h), s, h ++ [e]).

Notation "'let*' x ':=' m 'in' k" := (bind m (fun x => k))
  (at level 10, x pattern, m at level 100, k at level 200).
Notation "m ;;; k" := (bind m (fun _ => k))
  (at level 100, k at level 200, right associativity).

Definition result {A} (r : outcome A * ASQESpectrometer * history) : outcome A :=
  r.1.1.
Definition self_after {A} (r : outcome A * ASQESpectrometer * history)
    : ASQESpectrometer := r.1.2.
Definition history_after {A} (r : outcome A * ASQESpectrometer * history) : history :=
  r.2.

(** [set_parameters]: each argument that is not [None] replaces the attribute
    of its name. *)
Definition set_parameters
    (scans blank_scans exposure mode start_element end_element reduction : option Z)
    : M unit :=
  setattr (fun s => {|
    num_of_scans := default (num_of_scans s) scans;
    num_of_blank_scans := default (num_of_blank_scans s) blank_scans;
    exposure_time := default (exposure_time s) exposure;
    scan_mode := default (scan_mode s) mode;
    num_of_start_element := default (num_of_start_element s) start_element;
    num_of_end_element := default (num_of_end_element s) end_element;
    reduction_mode := default (reduction_mode s) reduction;
    _calibration_data_loaded := _calibration_data_loaded s;
    bck_aT := bck_aT s;
    wavelength := wavelength s;
    norm_coef := norm_coef s;
    power_coef := power_coef s
  |}).

Section Spectrometer.

(** The loaded native library. *)
Variable lib : driver.

(** [float(str)] and the conversion numpy applies to each [str] of a list
    under [dtype=float]; [None] stands for their [ValueError].  A decoded
    [str] is its list of code points. *)
Variable py_float : list Z -> option float.
Variable np_float : list Z -> option float.

Definition connect : M unit :=
  let* result := call ConnectToDevice (connectToDevice lib) in
  if negb (result =? 0) then raise (ConnectionError result) else ret tt.

Definition READ_FLASH_OK : Z := 0.

(** [read_flash], for a [size] whose buffer Python allocates: not negative,
    and small enough for the memory at hand (the program itself asks for
    1000 bytes).  [offset] and [size] reach the library as [c_uint32]. *)
Definition read_flash (offset size : Z) : M (list byte) :=
  let n := Z.to_nat size in
  let* (result, written) :=
     call (ReadFlash n (c_uint32 offset) (c_uint32 size))
          (fun h => readFlash lib h (c_uint32 offset) (c_uint32 size)) in
  if negb (result =? READ_FLASH_OK) then raise (RuntimeError result)
  else ret (fill x00 n written).

Definition CHUNK_SIZE : Z := 1000.
Definition MAX_SIZE : Z := 100000.

(** The [while] loop of [read_calibration_file]; [fuel] bounds the number of
    iterations. *)
Fixpoint read_calibration_loop (fuel : nat) (offset : Z) (FOUND_TERMINATION : bool)
    (full_data : list byte) : M (list byte) :=
  if (offset <=? MAX_SIZE) && negb FOUND_TERMINATION then
    match fuel with
    | O => diverge
    | S fuel' =>
        let* data := read_flash offset CHUNK_SIZE in
        let stop_index := find data marker in
        if negb (stop_index =? -1) then
          read_calibration_loop fuel' (offset + CHUNK_SIZE) true
            (full_data ++ take (Z.to_nat stop_index) data)
        else
          read_calibration_loop fuel' (offset + CHUNK_SIZE) false (full_data ++ data)
    end
  else ret full_data.

(** The offset grows by [CHUNK_SIZE] from 0 and the loop ends once it exceeds
    [MAX_SIZE]: 101 iterations at most. *)
Definition read_calibration_file : M (list byte) :=
  read_calibration_loop (Z.to_nat (MAX_SIZE / CHUNK_SIZE) + 1) 0 false [].

(** [np.array(lines, dtype=float)]. *)
Definition np_array_float (lines : list (list Z)) : M (list float) :=
  match mapM np_float lines with
  | Some a => ret a
  | None => raise (ValueError CouldNotConvertStringToFloat)
  end.

Definition load_calibration_data : M unit :=
  let* loaded := getattr _calibration_data_loaded in
  if loaded then ret tt
  else
    let* calib := read_calibration_file in
    match utf8_decode calib with
    | None => raise UnicodeDecodeError
    | Some decode_data =>
        let lines := splitlines decode_data in
        (* float(lines[1]); IndexError and ValueError are both re-raised as
           one ValueError *)
        match lines !! 1%nat ≫= py_float with
        | None => raise (ValueError FailedToParseBckAT)
        | Some v =>
            setattr (set_bck_aT v) ;;;
            let* a := np_array_float (slice 12 3665 lines) in
            setattr (set_wavelength a) ;;;
            let* a := np_array_float (slice 3666 7319 lines) in
            setattr (set_norm_coef a) ;;;
            let* a := np_array_float (slice 7320 10973 lines) in
            setattr (set_power_coef a) ;;;
            setattr (set_calibration_data_loaded true)
        end
    end.

(** The values returned by the two calls are dropped. *)
Definition configure_acquisition : M unit :=
  let* s := getattr id in
  let scans := c_uint16 (num_of_scans s) in
  let blank := c_uint16 (num_of_blank_scans s) in
  let mode := c_uint8 (scan_mode s) in
  let exposure := c_uint32 (exposure_time s) in
  call (SetAcquisitionParameters scans blank mode exposure)
       (fun h => setAcquisitionParameters lib h scans blank mode exposure) ;;;
  let first := c_uint16 (num_of_start_element s) in
  let last := c_uint16 (num_of_end_element s) in
  let reduction := c_uint8 (reduction_mode s) in
  call (SetFrameFormat first last reduction)
       (fun h => setFrameFormat lib h first last reduction) ;;;
  ret tt.

(** The [while frames.value == 0] loop of [capture_frame]; [fuel] bounds the
    number of polls, the source has no bound. *)
Fixpoint poll_frames (fuel : nat) (frames : Z) : M unit :=
  if frames =? 0 then
    match fuel with
    | O => diverge
    | S fuel' =>
        call (Sleep 25) (fun _ => tt) ;;;
        let* answer := call GetStatus (getStatus lib) in
        poll_frames fuel' (c_uint16 answer.2.2)
    end
  else ret tt.

Definition capture_frame (fuel : nat) : M (list Z) :=
  call TriggerAcquisition (triggerAcquisition lib) ;;;
  poll_frames fuel (c_uint16 0) ;;;
  let buffer_size := 3694%nat in
  let max_len := c_uint16 65535 in
  let* answer := call (GetFrame buffer_size max_len) (fun h => getFrame lib h max_len) in
  ret (fill 0 buffer_size (map c_uint16 answer.2)).

Definition get_spectrum (fuel : nat) : M (list Z) := capture_frame fuel.

Definition subtract_background (fuel : nat) : M (list float) :=
  let* data := capture_frame fuel in
  ret (subtract_background_of data).

(** [data op= other] where [other] is an attribute that may still be
    [None]. *)
Definition inplace (op : float -> float -> float) (data : list float)
    (other : option (list float)) : M (list float) :=
  match other with
  | None => raise TypeError
  | Some c =>
      match np_inplace op data c with
      | Some r => ret r
      | None => raise (ValueError CouldNotBroadcast)
      end
  end.

Definition normalize_spectrum (fuel : nat) : M (option (list float) * list float) :=
  let* loaded := getattr _calibration_data_loaded in
  (if negb loaded then load_calibration_data else ret tt) ;;;
  let* data := subtract_background fuel in
  let* coef := getattr norm_coef in
  let* data := inplace PrimFloat.div data coef in
  let* w := getattr wavelength in
  ret (w, data).

(** In [data *= self.power_coef / (self.exposure_time * self.bck_aT)] the
    product is evaluated before the quotient: a [bck_aT] that is [None] or
    an [exposure_time] too large for a float is met before a [power_coef]
    that is [None]. *)
Definition get_calibrated_spectrum (fuel : nat) : M (option (list float) * list float) :=
  let* (w, data) := normalize_spectrum fuel in
  let* s := getattr id in
  match bck_aT s with
  | None => raise TypeError
  | Some b =>
      match int_as_float (exposure_time s) with
      | None => raise OverflowError
      | Some exposure =>
          let divisor := PrimFloat.mul exposure b in
          match power_coef s with
          | None => raise TypeError
          | Some coef =>
              let factor := map (fun p => PrimFloat.div p divisor) coef in
              let* data := inplace PrimFloat.mul data (Some factor) in
              ret (w, data)
          end
      end
  end.

End Spectrometer.

(** ** Vocabulary of the statements *)

(** The marker occurs in [l] at index [k]. *)
Definition marker_at (l : list byte) (k : nat) : Prop :=
  l !! k = Some xff /\ l !! S k = Some xff.

(** The reads made by the first [n] iterations of [read_calibration_file]. *)
Definition flash_reads (n : nat) : history :=
  map (fun j => ReadFlash 1000 (1000 * Z.of_nat j) 1000) (seq 0 n).

(** The flash answers the read of iteration [j] with status 0 and bytes
    [c j], when asked after the reads of the iterations before it. *)
Definition served (lib : driver) (h0 : history) (c : nat -> list byte) (j : nat) : Prop :=
  readFlash lib (h0 ++ flash_reads j) (1000 * Z.of_nat j) 1000 = (0, c j).

(** The 1000 bytes that [read_flash] returns at iteration [j] when the
    library stored [c j]. *)
Definition chunk (c : nat -> list byte) (j : nat) : list byte := fill x00 1000 (c j).

(** The library reads the flash memory [mem] faithfully, whenever asked. *)
Definition serves (lib : driver) (mem : list byte) : Prop :=
  forall (h : history) (offset size : Z),
    0 <= offset -> 0 <= size ->
    readFlash lib h offset size
    = (0, take (Z.to_nat size) (drop (Z.to_nat offset) mem)).

(** What such a library stores at iteration [j]. *)
Definition flash_chunk (mem : list byte) (j : nat) : list byte :=
  take 1000 (drop (1000 * j) mem).

(** Markers before [p] all have their two bytes in different chunks. *)
Definition only_split_before (mem : list byte) (p : nat) : Prop :=
  forall q, (q < p)%nat -> marker_at mem q -> (q mod 1000 = 999)%nat.

(** The calls made by [n] rounds of the polling loop. *)
Definition polls_log (n : nat) : history :=
  concat (replicate n [Sleep 25; GetStatus]).

(** The frame count read by the poll numbered [k] (from 0), when the polling
    starts after the calls [h1]. *)
Definition frames_at (lib : driver) (h1 : history) (k : nat) : Z :=
  c_uint16 (getStatus lib (h1 ++ polls_log k ++ [Sleep 25])).2.2.

(** The buffer that [capture_frame] returns when [getFrame] is called after
    the calls [h]. *)
Definition frame_buffer (lib : driver) (h : history) : list Z :=
  fill 0 3694 (map c_uint16 (getFrame lib h 65535).2).

(** The attributes of [self] once the four calibration values are stored
    and the flag is set. *)
Definition with_calibration (v : float) (w n p : list float) (s : ASQESpectrometer)
    : ASQESpectrometer :=
  set_calibration_data_loaded true
    (set_power_coef p (set_norm_coef n (set_wavelength w (set_bck_aT v s)))).

(** What [load_calibration_data] makes of the lines of the decoded blob. *)
Definition parse_lines (py_float np_float : list Z -> option float)
    (lines : list (list Z)) (s : ASQESpectrometer) : outcome unit * ASQESpectrometer :=
  match lines !! 1%nat ≫= py_float with
  | None => (Raise (ValueError FailedToParseBckAT), s)
  | Some v =>
      match mapM np_float (slice 12 3665 lines) with
      | None => (Raise (ValueError CouldNotConvertStringToFloat), set_bck_aT v s)
      | Some w =>
          match mapM np_float (slice 3666 7319 lines) with
          | None => (Raise (ValueError CouldNotConvertStringToFloat),
                     set_wavelength w (set_bck_aT v s))
          | Some n =>
              match mapM np_float (slice 7320 10973 lines) with
              | None => (Raise (ValueError CouldNotConvertStringToFloat),
                         set_norm_coef n (set_wavelength w (set_bck_aT v s)))
              | Some p => (Ret tt, with_calibration v w n p s)
              end
          end
      end
  end.

(** The intensities computed by [get_calibrated_spectrum] from a captured
    buffer and calibration arrays of the buffer's window length. *)
Definition calibrated (data : list Z) (n p : list float) (exposure : Z) (b : float)
    : list float :=
  zip_with PrimFloat.mul
    (zip_with PrimFloat.div (subtract_background_of data) n)
    (map (fun c => PrimFloat.div c (PrimFloat.mul (float_of_Z exposure) b)) p).

(** What the last two stages make of a captured buffer, given the
    attributes of [self]. *)
Definition stages (s : ASQESpectrometer) (data : list Z)
    : outcome (option (list float) * list float) :=
  match norm_coef s with
  | None => Raise TypeError
  | Some c =>
      match np_inplace PrimFloat.div (subtract_background_of data) c with
      | None => Raise (ValueError CouldNotBroadcast)
      | Some r =>
          match bck_aT s with
          | None => Raise TypeError
          | Some b =>
              match int_as_float (exposure_time s) with
              | None => Raise OverflowError
              | Some exposure =>
                  match power_coef s with
                  | None => Raise TypeError
                  | Some coef =>
                      match np_inplace PrimFloat.mul r
                              (map (fun p => PrimFloat.div p (PrimFloat.mul exposure b))
                                 coef) with
                      | Some out => Ret (wavelength s, out)
                      | None => Raise (ValueError CouldNotBroadcast)
                      end
                  end
              end
          end
      end
  end.

(** The text whose lines are [lines], each ended by a line feed. *)
Definition terminated (lines : list (list Z)) : list Z :=
  concat (map (fun l => l ++ [10]) lines).

(** No character of [lines] is a line boundary. *)
Definition unbroken (lines : list (list Z)) : bool :=
  forallb (forallb (fun c => negb (is_linebreak c))) lines.

(** The lines of a calibration file: a first line, the line of [bck_aT],
    ten more header lines, then the lines of the three arrays, with one line
    between them. *)
Definition calibration_lines (line0 line1 : list Z) (header : list (list Z))
    (w : list (list Z)) (gap1 : list Z) (n : list (list Z)) (gap2 : list Z)
    (p : list (list Z)) : list (list Z) :=
  [line0; line1] ++ header ++ w ++ [gap1] ++ n ++ [gap2] ++ p.

(** ** Drivers and inputs used in examples *)

(** A device whose flash holds [mem], that reports a frame at the poll
    numbered [ready] (from 0) and from then on, delivers [samples], and
    answers every call with status 0 except [triggerAcquisition], which
    answers [trigger_status]. *)
Definition bench (mem : list byte) (ready : nat) (samples : list Z)
    (trigger_status : Z) : driver := {|
  connectToDevice := fun _ => 0;
  setAcquisitionParameters := fun _ _ _ _ _ => 0;
  setFrameFormat := fun _ first last _ => (0, last - first + 1);
  getStatus := fun h =>
    (0, (0, if (ready <=? calls is_poll h)%nat then 1 else 0));
  getFrame := fun _ _ => (0, samples);
  triggerAcquisition := fun _ => trigger_status;
  readFlash := fun _ offset size =>
    (0, take (Z.to_nat size) (drop (Z.to_nat offset) mem))
|}.

(** A stand-in for [float] on unsigned decimal literals. *)
Definition digit_value (c : Z) : option Z :=
  if (48 <=? c) && (c <=? 57) then Some (c - 48) else None.

Definition digits_float (s : list Z) : option float :=
  match s with
  | [] => None
  | _ =>
      float_of_Z
        <$> foldl (fun acc c => a ← acc; d ← digit_value c; Some (10 * a + d)) (Some 0) s
  end.


(** An object whose calibration is loaded with constant arrays, after
    [set_parameters(exposure_time=exposure)]. *)
Definition flat_object (exposure : Z) (b n p : float) : ASQESpectrometer :=
  self_after
    (set_parameters None None (Some exposure) None None None None
       (with_calibration b (replicate 3653 1%float) (replicate 3653 n)
          (replicate 3653 p) init_attributes) []).

(** A frame of 1000s. *)
Definition uniform_frame : list Z := replicate 3694 1000.

(** The same frame with 1003 in the first sample of the window. *)
Definition raised_frame : list Z := replicate 32 1000 ++ 1003 :: replicate 3661 1000.

(** The decimal digits of a natural number. *)
Fixpoint digits_of (fuel : nat) (z : Z) (acc : list Z) : list Z :=
  match fuel with
  | O => acc
  | S fuel' =>
      let acc' := (48 + z mod 10) :: acc in
      if z <? 10 then acc' else digits_of fuel' (z / 10) acc'
  end.

Definition digits (z : Z) : list Z := digits_of 20 z [].

(** The bytes of a text of ASCII characters. *)
Definition encode_ascii (text : list Z) : list byte :=
  map (fun c => default x00 (Byte.of_N (Z.to_N c))) text.

(** [n] consecutive integers from [z]. *)
Fixpoint count_from (n : nat) (z : Z) : list Z :=
  match n with
  | O => []
  | S n' => z :: count_from n' (z + 1)
  end.

(** Calibration values: wavelengths 350, 351, ..., [norm_coef] 2.0 and
    [power_coef] 4.0 throughout, [bck_aT] 1.0. *)
Definition sample_wavelength : list float := map float_of_Z (count_from 3653 350).
Definition sample_norm_coef : list float := replicate 3653 2%float.
Definition sample_power_coef : list float := replicate 3653 4%float.

(** The lines of their calibration file; the first line is [pad] letters,
    the other header lines are a [#], the lines between arrays are empty. *)
Definition sample_lines (pad : nat) : list (list Z) :=
  calibration_lines (replicate pad 65) (digits 1) (replicate 10 [35])
    (map digits (count_from 3653 350)) []
    (replicate 3653 (digits 2)) [] (replicate 3653 (digits 4)).

Definition sample_blob (pad : nat) : list byte := encode_ascii (terminated (sample_lines pad)).

(** A flash holding the blob, the marker and eight more bytes. *)
Definition sample_flash (pad : nat) : list byte :=
  sample_blob pad ++ xff :: xff :: replicate 8 x00.

(** Flash contents with the first marker at offset 1500 (inside the second
    chunk), at offset 2000 (the start of the third chunk) and at offset 999
    (across the first two chunks). *)
Definition flash_inside : list byte := replicate 1500 x41 ++ xff :: xff :: replicate 10 x42.
Definition flash_at_start : list byte := replicate 2000 x41 ++ xff :: xff :: replicate 10 x42.
Definition flash_across : list byte := replicate 999 x41 ++ xff :: xff :: replicate 10 x42.

(** Flash contents with the first marker at offset 101500, inside the chunk
    after the last one that is read. *)
Definition flash_beyond_cap : list byte :=
  replicate (1000 * 101 + 500) x41 ++ xff :: xff :: replicate 10 x42.

(** A flash whose text has two lines, [7] and [1], and one whose text has
    the single line [7]. *)
Definition flash_two_lines : list byte := [x37; x0a; x31; x0a; xff; xff].
Definition flash_one_line : list byte := [x37; x0a; xff; xff].

(** ** Construction and teardown *)

(** [__init__] after the library is loaded: the attributes are set, then the
    device is connected. *)
Definition __init__ (lib : driver) : M unit :=
  setattr (fun _ => init_attributes) ;;;
  connect lib.

(** [__del__], for an object whose library was loaded. *)
Definition __del__ (lib : driver) : M unit :=
  call DisconnectDevice (fun _ => tt).

(** ** Vocabulary of further statements *)

(** The acquisition parameters of two objects agree. *)
Definition same_parameters (s s' : ASQESpectrometer) : Prop :=
  num_of_scans s' = num_of_scans s
  /\ num_of_blank_scans s' = num_of_blank_scans s
  /\ exposure_time s' = exposure_time s
  /\ scan_mode s' = scan_mode s
  /\ num_of_start_element s' = num_of_start_element s
  /\ num_of_end_element s' = num_of_end_element s
  /\ reduction_mode s' = reduction_mode s.

(** The calibration attributes of two objects agree. *)
Definition same_calibration (s s' : ASQESpectrometer) : Prop :=
  _calibration_data_loaded s' = _calibration_data_loaded s
  /\ bck_aT s' = bck_aT s
  /\ wavelength s' = wavelength s
  /\ norm_coef s' = norm_coef s
  /\ power_coef s' = power_coef s.

(** When the flag is set the four calibration values are there. *)
Definition cache_ok (s : ASQESpectrometer) : Prop :=
  _calibration_data_loaded s = true ->
  is_Some (bck_aT s) /\ is_Some (wavelength s) /\ is_Some (norm_coef s)
  /\ is_Some (power_coef s).

(** The argument that wins when a parameter is given twice. *)
Definition latest (new old : option Z) : option Z :=
  match new with
  | Some _ => new
  | None => old
  end.

(** The calls [configure_acquisition] makes for the attributes of [s]. *)
Definition configuration_calls (s : ASQESpectrometer) : history :=
  [SetAcquisitionParameters (c_uint16 (num_of_scans s)) (c_uint16 (num_of_blank_scans s))
     (c_uint8 (scan_mode s)) (c_uint32 (exposure_time s));
   SetFrameFormat (c_uint16 (num_of_start_element s)) (c_uint16 (num_of_end_element s))
     (c_uint8 (reduction_mode s))].

(** The samples that [subtract_background] reads. *)
Definition sample_used (i : nat) : Prop :=
  (15 <= i < 31)%nat \/ (32 <= i < 3685)%nat \/ (3686 <= i < 3692)%nat.

(** What [normalize_spectrum] makes of a captured buffer, given the
    attributes of [self]. *)
Definition normalized (s : ASQESpectrometer) (data : list Z)
    : outcome (option (list float) * list float) :=
  match norm_coef s with
  | None => Raise TypeError
  | Some c =>
      match np_inplace PrimFloat.div (subtract_background_of data) c with
      | None => Raise (ValueError CouldNotBroadcast)
      | Some r => Ret (wavelength s, r)
      end
  end.

(** A method's run in two steps: the calibration is loaded (at once when it
    is cached), then a frame is captured and [stage] applied to it. *)
Definition load_then_capture {A} (lib : driver)
    (py_float np_float : list Z -> option float) (fuel : nat)
    (stage : ASQESpectrometer -> list Z -> outcome A)
    (s : ASQESpectrometer) (h : history) : outcome A * ASQESpectrometer * history :=
  match load_calibration_data lib py_float np_float s h with
  | (Ret _, s1, h1) =>
      match capture_frame lib fuel s1 h1 with
      | (Ret data, s', h') => (stage s' data, s', h')
      | (Raise e, s', h') => (Raise e, s', h')
      | (Diverge, s', h') => (Diverge, s', h')
      end
  | (Raise e, s1, h1) => (Raise e, s1, h1)
  | (Diverge, s1, h1) => (Diverge, s1, h1)
  end.

(** A device like [bench] whose flash cannot be read from offset [bad] on:
    such reads answer status [code]. *)
Definition worn (mem : list byte) (bad code : Z) : driver := {|
  connectToDevice := fun _ => 0;
  setAcquisitionParameters := fun _ _ _ _ _ => 0;
  setFrameFormat := fun _ first last _ => (0, last - first + 1);
  getStatus := fun _ => (0, (0, 1));
  getFrame := fun _ _ => (0, uniform_frame);
  triggerAcquisition := fun _ => 0;
  readFlash := fun _ offset size =>
    if bad <=? offset then (code, [])
    else (0, take (Z.to_nat size) (drop (Z.to_nat offset) mem))
|}.

(** A device that refuses the connection with status [code]. *)
Definition unplugged (code : Z) : driver := {|
  connectToDevice := fun _ => code;
  setAcquisitionParameters := fun _ _ _ _ _ => 0;
  setFrameFormat := fun _ _ _ _ => (0, 0);
  getStatus := fun _ => (0, (0, 0));
  getFrame := fun _ _ => (0, []);
  triggerAcquisition := fun _ => 0;
  readFlash := fun _ _ _ => (0, [])
|}.

(** What [subtract_background] leaves of a sample of a frame whose samples
    all equal [v]. *)
Definition flat_residue (v : Z) : float :=
  PrimFloat.sub (float_of_Z v)
    (PrimFloat.div
       (PrimFloat.add (PrimFloat.div (float_of_Z (16 * v)) 16%float)
          (PrimFloat.div (float_of_Z (6 * v)) 6%float))
       2%float).

(** The float is [+0.0]. *)
Definition is_zero (x : float) : bool :=
  match FloatOps.Prim2SF x with
  | SpecFloat.S754_zero false => true
  | _ => false
  end.

(** [uniform_frame] with other values in samples that are not read. *)
Definition glitched_frame : list Z :=
  <[0%nat:=1]> (<[31%nat:=7]> (<[3685%nat:=9]> (<[3693%nat:=65535]> uniform_frame))).
(** * Properties *)

(** ** [bytes.find] of the two-byte marker *)

(** ** Int to float *)

(** Rounding passes the sign through. *)
Lemma binary_round_opp (m : positive) (e : Z) :
  SpecFloat.SFopp (SpecFloat.binary_round FloatOps.prec FloatOps.emax false m e)
  = SpecFloat.binary_round FloatOps.prec FloatOps.emax true m e.
Proof.
  unfold SpecFloat.binary_round, SpecFloat.binary_round_aux.
  destruct (SpecFloat.shl_align _ _ _) as [mz ez].
  destruct (SpecFloat.shr_fexp _ _ _ _ _) as [mrs' e'].
  destruct (SpecFloat.shr_fexp _ _ _ _ _) as [mrs'' e''].
  destruct (SpecFloat.shr_m mrs'') as [|q|q]; try reflexivity.
  destruct (e'' <=? FloatOps.emax - FloatOps.prec); reflexivity.
Qed.

(** On either branch [float_of_Z] is the nearest float, ties to even. *)
Lemma float_of_Z_nearest (z : Z) :
  float_of_Z z
  = FloatOps.SF2Prim (SpecFloat.binary_normalize FloatOps.prec FloatOps.emax z 0 false).
Proof.
  unfold float_of_Z. destruct (Z.abs z <? 2 ^ 63) eqn:Hb; [|reflexivity].
  apply Z.ltb_lt in Hb. rewrite <- (FloatAxioms.SF2Prim_Prim2SF _). f_equal.
  assert (forall n, 0 <= n < 2 ^ 63 -> Uint63.to_Z (Uint63.of_Z n) = n) as Hof.
  { intros n Hn. rewrite Uint63.of_Z_spec. apply Z.mod_small. exact Hn. }
  destruct (z <? 0) eqn:Hs.
  - apply Z.ltb_lt in Hs.
    rewrite FloatAxioms.opp_spec, FloatAxioms.of_uint63_spec, Hof by lia.
    destruct z as [|q|q]; try lia. cbn [Z.opp SpecFloat.binary_normalize].
    apply binary_round_opp.
  - apply Z.ltb_ge in Hs. rewrite FloatAxioms.of_uint63_spec, Hof by lia. reflexivity.
Qed.

Lemma int_as_float_value (z : Z) (x : float) :
  int_as_float z = Some x -> x = float_of_Z z.
Proof.
  unfold int_as_float. cbv zeta.
  destruct (PrimFloat.is_infinity (float_of_Z z)); [discriminate|]. congruence.
Qed.

Lemma byte_eqb_true (a b : byte) : Byte.eqb a b = true <-> a = b.
Proof.
  split; [intros H | intros ->; apply Byte.byte_dec_lb; reflexivity].
  apply Byte.byte_dec_bl; exact H.
Qed.

Lemma startswith_marker (l : list byte) :
  startswith marker l = true <-> marker_at l 0.
Proof.
  unfold marker_at, marker. destruct l as [|a [|b l]]; simpl.
  - split; [discriminate | intros [? _]; discriminate].
  - rewrite andb_false_r. split; [discriminate | intros [_ ?]; discriminate].
  - rewrite andb_true_r, andb_true_iff, !byte_eqb_true.
    split; [intros [<- <-]; auto | intros [[= <-] [= <-]]; auto].
Qed.

Lemma marker_at_cons (a : byte) (l : list byte) (k : nat) :
  marker_at (a :: l) (S k) <-> marker_at l k.
Proof. reflexivity. Qed.

Lemma find_from_range (i : Z) (l : list byte) :
  find_from i marker l = -1 \/ i <= find_from i marker l < i + Z.of_nat (length l).
Proof.
  revert i; induction l as [|a l IH]; intros i.
  - left; reflexivity.
  - cbn [find_from]. destruct (startswith marker (a :: l)).
    + right. cbn [length]. lia.
    + destruct (IH (i + 1)) as [->|?]; [left; reflexivity | right; cbn [length]; lia].
Qed.

Lemma find_from_none (i : Z) (l : list byte) :
  0 <= i -> (find_from i marker l = -1 <-> forall k, ~ marker_at l k).
Proof.
  revert i; induction l as [|a l IH]; intros i Hi.
  - split; [intros _ k [H _]; discriminate | reflexivity].
  - cbn [find_from]. destruct (startswith marker (a :: l)) eqn:E.
    + apply startswith_marker in E. split; [lia | intros H; destruct (H _ E)].
    + rewrite IH by lia. split; intros H k.
      * destruct k as [|k]; [rewrite <- startswith_marker, E; discriminate|].
        rewrite marker_at_cons; apply H.
      * rewrite <- marker_at_cons; apply H.
Qed.

Lemma find_from_some (i : Z) (l : list byte) (k : nat) :
  0 <= i ->
  (find_from i marker l = i + Z.of_nat k
   <-> marker_at l k /\ forall j, (j < k)%nat -> ~ marker_at l j).
Proof.
  revert i k; induction l as [|a l IH]; intros i k Hi.
  - cbn [find_from startswith marker]. split; [lia | intros [[H _] _]; discriminate].
  - cbn [find_from]. destruct (startswith marker (a :: l)) eqn:E.
    + pose proof E as E'. apply startswith_marker in E'. split.
      * intros H. assert (k = 0%nat) as -> by lia. split; [exact E' | intros; lia].
      * intros [_ H]. destruct k as [|k]; [lia|]. destruct (H 0%nat); [lia | exact E'].
    + destruct k as [|k].
      * split.
        -- intros H. pose proof (find_from_range (i + 1) l). lia.
        -- intros [H _]. apply startswith_marker in H. congruence.
      * replace (i + Z.of_nat (S k)) with ((i + 1) + Z.of_nat k) by lia.
        rewrite IH by lia. rewrite marker_at_cons. split; intros [H1 H2]; split; auto.
        -- intros [|j] Hj; [rewrite <- startswith_marker, E; discriminate|].
           rewrite marker_at_cons; apply H2; lia.
        -- intros j Hj. rewrite <- marker_at_cons; apply H2; lia.
Qed.

(** [find] returns [-1] exactly when the marker occurs nowhere. *)
Lemma find_marker_none (l : list byte) :
  find l marker = -1 <-> forall k, ~ marker_at l k.
Proof. apply find_from_none; lia. Qed.

(** [find] returns the index of the first occurrence. *)
Lemma find_marker_some (l : list byte) (k : nat) :
  find l marker = Z.of_nat k
  <-> marker_at l k /\ forall j, (j < k)%nat -> ~ marker_at l j.
Proof. apply (find_from_some 0 l k); lia. Qed.

Lemma find_marker_range (l : list byte) :
  find l marker = -1 \/ 0 <= find l marker < Z.of_nat (length l).
Proof. destruct (find_from_range 0 l) as [H|H]; [left | right]; unfold find; lia. Qed.

(** ** The chunked flash reader *)

Lemma flash_reads_S (n : nat) :
  flash_reads (S n) = flash_reads n ++ [ReadFlash 1000 (1000 * Z.of_nat n) 1000].
Proof. unfold flash_reads. rewrite seq_S, map_app. reflexivity. Qed.

Lemma calls_app (kind : event -> bool) (h1 h2 : history) :
  calls kind (h1 ++ h2) = (calls kind h1 + calls kind h2)%nat.
Proof. unfold calls. rewrite List.filter_app, length_app. reflexivity. Qed.

Lemma calls_flash_reads (n : nat) : calls is_flash_read (flash_reads n) = n.
Proof.
  induction n as [|n IH]; [reflexivity|].
  rewrite flash_reads_S, calls_app, IH. cbn. lia.
Qed.

Section FlashReader.

Variable lib : driver.

Lemma read_flash_run (offset size : Z) (s : ASQESpectrometer) (h : history) :
  read_flash lib offset size s h =
    ((let answer := readFlash lib h (c_uint32 offset) (c_uint32 size) in
      if (answer.1 =? 0) then Ret (fill x00 (Z.to_nat size) answer.2)
      else Raise (RuntimeError answer.1)),
     s, h ++ [ReadFlash (Z.to_nat size) (c_uint32 offset) (c_uint32 size)]).
Proof.
  unfold read_flash, bind, call, READ_FLASH_OK.
  destruct (readFlash lib h (c_uint32 offset) (c_uint32 size)) as [st w]. cbn.
  destruct (st =? 0); reflexivity.
Qed.

Lemma loop_found (fuel : nat) (offset : Z) (acc : list byte) (s : ASQESpectrometer) (h : history) :
  read_calibration_loop lib fuel offset true acc s h = (Ret acc, s, h).
Proof. destruct fuel; cbn; rewrite andb_false_r; reflexivity. Qed.

Lemma loop_cap (fuel : nat) (offset : Z) (found : bool) (acc : list byte)
    (s : ASQESpectrometer) (h : history) :
  MAX_SIZE < offset ->
  read_calibration_loop lib fuel offset found acc s h = (Ret acc, s, h).
Proof.
  intros H. assert ((offset <=? MAX_SIZE) = false) as E by (apply Z.leb_gt; exact H).
  destruct fuel; cbn; rewrite E; reflexivity.
Qed.

(** One iteration whose read succeeds. *)
Lemma loop_step (fuel k : nat) (acc w : list byte) (s : ASQESpectrometer) (h : history) :
  (k <= 100)%nat ->
  readFlash lib h (1000 * Z.of_nat k) 1000 = (0, w) ->
  read_calibration_loop lib (S fuel) (1000 * Z.of_nat k) false acc s h =
    let data := fill x00 1000 w in
    let h' := h ++ [ReadFlash 1000 (1000 * Z.of_nat k) 1000] in
    if find data marker =? -1
    then read_calibration_loop lib fuel (1000 * Z.of_nat (S k)) false (acc ++ data) s h'
    else read_calibration_loop lib fuel (1000 * Z.of_nat (S k)) true
           (acc ++ take (Z.to_nat (find data marker)) data) s h'.
Proof.
  intros Hk Hread.
  assert (c_uint32 (1000 * Z.of_nat k) = 1000 * Z.of_nat k) as Eo
    by (unfold c_uint32; apply Z.mod_small; lia).
  assert ((1000 * Z.of_nat k <=? MAX_SIZE) = true) as Ec
    by (apply Z.leb_le; unfold MAX_SIZE; lia).
  cbn [read_calibration_loop]. rewrite Ec. cbn [andb negb].
  unfold bind at 1. rewrite read_flash_run. unfold CHUNK_SIZE.
  rewrite Eo. change (c_uint32 1000) with 1000. rewrite Hread.
  change (Z.to_nat 1000) with 1000%nat. cbn [fst snd Z.eqb].
  replace (1000 * Z.of_nat k + 1000) with (1000 * Z.of_nat (S k)) by lia.
  cbv zeta. destruct (find (fill x00 1000 w) marker =? -1); reflexivity.
Qed.

Section Chunks.

Variable h0 : history.
Variable c : nat -> list byte.

Local Abbreviation served := (served lib h0 c).
Local Abbreviation chunk := (chunk c).

(** [m] iterations in which no chunk holds the marker. *)
Lemma loop_skip (s : ASQESpectrometer) (m : nat) :
  forall (k fuel : nat) (acc : list byte),
    (k + m <= 101)%nat ->
    (forall j, (k <= j < k + m)%nat -> served j /\ find (chunk j) marker = -1) ->
    read_calibration_loop lib (m + fuel) (1000 * Z.of_nat k) false acc s
      (h0 ++ flash_reads k)
    = read_calibration_loop lib fuel (1000 * Z.of_nat (k + m)) false
        (acc ++ concat (map chunk (seq k m))) s (h0 ++ flash_reads (k + m)).
Proof.
  induction m as [|m IH]; intros k fuel acc Hk H.
  - rewrite Nat.add_0_r. cbn [seq map concat]. rewrite app_nil_r. reflexivity.
  - destruct (H k) as [Hs Hf]; [lia|].
    assert (k <= 100)%nat as Hk' by lia.
    change (S m + fuel)%nat with (S (m + fuel)).
    rewrite (loop_step (m + fuel) k acc (c k) s _ Hk' Hs). cbv zeta.
    fold (chunk k). rewrite Hf. cbn [Z.eqb].
    rewrite <- app_assoc, <- flash_reads_S.
    rewrite IH; [|lia|intros; apply H; lia].
    replace (S k + m)%nat with (k + S m)%nat by lia.
    cbn [seq map concat]. rewrite <- app_assoc. reflexivity.
Qed.

Lemma loop_no_marker (s : ASQESpectrometer) :
  (forall j, (j <= 100)%nat -> served j /\ find (chunk j) marker = -1) ->
  read_calibration_file lib s h0
  = (Ret (concat (map chunk (seq 0 101))), s, h0 ++ flash_reads 101).
Proof.
  intros H. unfold read_calibration_file.
  change (Z.to_nat (MAX_SIZE / CHUNK_SIZE) + 1)%nat with (101 + 0)%nat.
  pose proof (loop_skip s 101 0 0 []) as E.
  change (flash_reads 0) with (@nil event) in E. rewrite app_nil_r in E.
  change (1000 * Z.of_nat 0) with 0 in E. rewrite E; [|lia|intros; apply H; lia].
  apply loop_cap. unfold MAX_SIZE. lia.
Qed.

Lemma loop_marker (s : ASQESpectrometer) (n : nat) :
  (n <= 100)%nat ->
  (forall j, (j <= n)%nat -> served j) ->
  (forall j, (j < n)%nat -> find (chunk j) marker = -1) ->
  find (chunk n) marker <> -1 ->
  read_calibration_file lib s h0
  = (Ret (concat (map chunk (seq 0 n))
            ++ take (Z.to_nat (find (chunk n) marker)) (chunk n)),
     s, h0 ++ flash_reads (S n)).
Proof.
  intros Hn Hs Hf Hlast. unfold read_calibration_file.
  change (Z.to_nat (MAX_SIZE / CHUNK_SIZE) + 1)%nat with 101%nat.
  replace 101%nat with (n + S (100 - n))%nat by lia.
  pose proof (loop_skip s n 0 (S (100 - n)) []) as E.
  change (flash_reads 0) with (@nil event) in E. rewrite app_nil_r in E.
  change (1000 * Z.of_nat 0) with 0 in E.
  rewrite E; [|lia|intros; split; [apply Hs|apply Hf]; lia].
  change (0 + n)%nat with n.
  assert (n <= n)%nat as Hnn by lia.
  rewrite (loop_step (100 - n) n _ (c n) s _ Hn (Hs n Hnn)). cbv zeta.
  fold (chunk n). apply Z.eqb_neq in Hlast. rewrite Hlast.
  rewrite loop_found, flash_reads_S, (app_assoc h0). reflexivity.
Qed.

End Chunks.

End FlashReader.

Lemma length_fill {A} (zero : A) (n : nat) (w : list A) : length (fill zero n w) = n.
Proof. unfold fill. rewrite length_take, length_app, length_replicate. lia. Qed.

Lemma lookup_fill {A} (zero : A) (n : nat) (w : list A) (k : nat) :
  (k < n)%nat -> fill zero n w !! k = Some (default zero (w !! k)).
Proof.
  intros Hk. unfold fill. rewrite lookup_take_lt by exact Hk.
  destruct (w !! k) as [x|] eqn:E; cbn [from_option id].
  - apply lookup_app_l_Some; exact E.
  - apply lookup_ge_None in E. rewrite lookup_app_r by exact E.
    apply lookup_replicate_2. lia.
Qed.

Lemma fill_full {A} (zero : A) (n : nat) (w : list A) :
  length w = n -> fill zero n w = w.
Proof. intros H. unfold fill. apply take_app_length'. symmetry; exact H. Qed.

Lemma take_fill {A} (zero : A) (n i : nat) (w : list A) :
  (i <= n)%nat -> (i <= length w)%nat -> take i (fill zero n w) = take i w.
Proof.
  intros Hn Hw. unfold fill. rewrite take_take, Nat.min_l by exact Hn.
  apply take_app_le; exact Hw.
Qed.

(** claim C3: [read_calibration_file] reads 1000-byte chunks at offsets 0,
    1000, 2000, ...; at the first chunk in which [find] locates the marker
    it appends the bytes of that chunk before the first occurrence and
    stops; when none of the chunks at offsets 0 to 100000 holds the marker it
    returns, without raising, the 101 chunks it has accumulated. *)
Theorem read_calibration_file_chunks (lib : driver) (s : ASQESpectrometer) (h0 : history)
    (c : nat -> list byte) :
  (forall n : nat,
      (n <= 100)%nat ->
      (forall j, (j <= n)%nat -> served lib h0 c j) ->
      (forall j, (j < n)%nat -> find (chunk c j) marker = -1) ->
      find (chunk c n) marker <> -1 ->
      exists i : nat,
        marker_at (chunk c n) i /\ (forall j, (j < i)%nat -> ~ marker_at (chunk c n) j) /\
        read_calibration_file lib s h0
        = (Ret (concat (map (chunk c) (seq 0 n)) ++ take i (chunk c n)),
           s, h0 ++ flash_reads (S n)))
  /\ ((forall j, (j <= 100)%nat -> served lib h0 c j /\ find (chunk c j) marker = -1) ->
      read_calibration_file lib s h0
      = (Ret (concat (map (chunk c) (seq 0 101))), s, h0 ++ flash_reads 101))
  /\ (forall j, length (chunk c j) = 1000%nat).
Proof.
  split; [|split].
  - intros n Hn Hs Hf Hlast.
    destruct (find_marker_range (chunk c n)) as [E|E]; [contradiction|].
    exists (Z.to_nat (find (chunk c n) marker)). 
    assert (find (chunk c n) marker = Z.of_nat (Z.to_nat (find (chunk c n) marker))) as E'
      by lia.
    apply find_marker_some in E'. destruct E' as [E1 E2].
    split; [exact E1|]. split; [exact E2|].
    apply loop_marker; assumption.
  - apply loop_no_marker.
  - intros j. apply length_fill.
Qed.

(** ** Reading a given flash memory *)

Lemma serves_served (lib : driver) (mem : list byte) (h0 : history) (j : nat) :
  serves lib mem -> served lib h0 (flash_chunk mem) j.
Proof.
  intros H. unfold served, flash_chunk. rewrite H by lia.
  change (Z.to_nat 1000) with 1000%nat.
  replace (Z.to_nat (1000 * Z.of_nat j)) with (1000 * j)%nat by lia. reflexivity.
Qed.

Lemma lookup_flash_chunk (mem : list byte) (j k : nat) :
  (k < 1000)%nat ->
  chunk (flash_chunk mem) j !! k = Some (default x00 (mem !! (1000 * j + k)%nat)).
Proof.
  intros Hk. unfold chunk, flash_chunk. rewrite lookup_fill by exact Hk.
  rewrite lookup_take_lt by exact Hk. rewrite lookup_drop. reflexivity.
Qed.

(** A marker inside a chunk is a marker of the flash, both bytes in the
    chunk. *)
Lemma marker_at_flash_chunk (mem : list byte) (j k : nat) :
  marker_at (chunk (flash_chunk mem) j) k
  <-> (S k < 1000)%nat /\ marker_at mem (1000 * j + k).
Proof.
  unfold marker_at. split.
  - intros [H1 H2].
    assert (S k < 1000)%nat as Hk.
    { apply lookup_lt_Some in H2. unfold chunk in H2. rewrite length_fill in H2. exact H2. }
    split; [exact Hk|].
    rewrite lookup_flash_chunk in H1 by lia. rewrite lookup_flash_chunk in H2 by lia.
    rewrite Nat.add_succ_r in H2.
    destruct (mem !! (1000 * j + k)%nat) as [a|]; [|discriminate].
    destruct (mem !! S (1000 * j + k)%nat) as [b|]; [|discriminate].
    cbn [from_option id] in H1, H2. split; congruence.
  - intros [Hk [H1 H2]]. rewrite !lookup_flash_chunk by lia.
    rewrite Nat.add_succ_r, H1, H2. split; reflexivity.
Qed.

Lemma flash_chunk_inside (mem : list byte) (j : nat) :
  (1000 * S j <= length mem)%nat ->
  chunk (flash_chunk mem) j = take 1000 (drop (1000 * j) mem).
Proof.
  intros H. unfold chunk, flash_chunk. apply fill_full.
  rewrite length_take, length_drop. lia.
Qed.

Lemma concat_flash_chunks (mem : list byte) (n : nat) :
  (1000 * n <= length mem)%nat ->
  concat (map (chunk (flash_chunk mem)) (seq 0 n)) = take (1000 * n) mem.
Proof.
  induction n as [|n IH]; intros H.
  - rewrite Nat.mul_0_r. reflexivity.
  - rewrite seq_S, map_app, concat_app, IH by lia.
    cbn [map concat Nat.add]. rewrite app_nil_r, flash_chunk_inside by exact H.
    rewrite take_take_drop. f_equal. lia.
Qed.

Lemma no_marker_before (mem : list byte) (p j : nat) :
  only_split_before mem p ->
  (1000 * j + 998 < p)%nat ->
  find (chunk (flash_chunk mem) j) marker = -1.
Proof.
  intros Hfirst Hj. apply find_marker_none. intros k Hk.
  apply marker_at_flash_chunk in Hk. destruct Hk as [Hk Hm].
  apply Hfirst in Hm; [|lia].
  replace (1000 * j + k)%nat with (k + j * 1000)%nat in Hm by lia.
  rewrite Nat.Div0.mod_add, Nat.mod_small in Hm by lia. lia.
Qed.

Section FlashMemory.

Variable lib : driver.
Variable mem : list byte.
Hypothesis Hserves : serves lib mem.

(** From any iteration on, the loop ends within its bound and only extends
    what it has accumulated. *)
Lemma loop_extends (s : ASQESpectrometer) (m : nat) :
  forall (k fuel : nat) (found : bool) (acc : list byte) (h : history),
    (k + m = 101)%nat -> (m <= fuel)%nat ->
    exists (rest : list byte) (h' : history),
      read_calibration_loop lib fuel (1000 * Z.of_nat k) found acc s h
      = (Ret (acc ++ rest), s, h ++ h').
Proof.
  induction m as [|m IH]; intros k fuel found acc h Hk Hfuel.
  - exists [], []. rewrite !app_nil_r. apply loop_cap. unfold MAX_SIZE. lia.
  - destruct found.
    { exists [], []. rewrite !app_nil_r. apply loop_found. }
    destruct fuel as [|fuel]; [lia|].
    assert (k <= 100)%nat as Hk' by lia.
    pose proof (Hserves h (1000 * Z.of_nat k) 1000 ltac:(lia) ltac:(lia)) as Hr.
    rewrite (loop_step lib fuel k acc _ s h Hk' Hr). cbv zeta.
    match goal with |- context [fill x00 1000 ?w] => set (data := fill x00 1000 w) end.
    destruct (find data marker =? -1).
    + destruct (IH (S k) fuel false (acc ++ data)
                  (h ++ [ReadFlash 1000 (1000 * Z.of_nat k) 1000]))
        as (rest & h' & E); [lia|lia|].
      exists (data ++ rest), (ReadFlash 1000 (1000 * Z.of_nat k) 1000 :: h').
      rewrite E, <- !app_assoc. reflexivity.
    + destruct (IH (S k) fuel true (acc ++ take (Z.to_nat (find data marker)) data)
                  (h ++ [ReadFlash 1000 (1000 * Z.of_nat k) 1000]))
        as (rest & h' & E); [lia|lia|].
      exists (take (Z.to_nat (find data marker)) data ++ rest),
             (ReadFlash 1000 (1000 * Z.of_nat k) 1000 :: h').
      rewrite E, <- !app_assoc. reflexivity.
Qed.

(** The loop stops at the first marker whose two bytes lie in one chunk. *)
Lemma read_to_marker (s : ASQESpectrometer) (h0 : history) (p : nat) :
  marker_at mem p ->
  only_split_before mem p ->
  (p mod 1000 <> 999)%nat ->
  (p / 1000 <= 100)%nat ->
  read_calibration_file lib s h0
  = (Ret (take p mem), s, h0 ++ flash_reads (S (p / 1000))).
Proof.
  intros Hp Hfirst Hmod Hdiv.
  pose proof (Nat.div_mod_eq p 1000) as Ep.
  pose proof (Nat.mod_upper_bound p 1000 ltac:(lia)) as Hi.
  set (n := (p / 1000)%nat) in *. set (i := (p mod 1000)%nat) in *.
  clearbody n i.
  assert (S p < length mem)%nat as Hlen
    by (destruct Hp as [_ H]; apply lookup_lt_Some in H; exact H).
  assert (find (chunk (flash_chunk mem) n) marker = Z.of_nat i) as Ei.
  { apply find_marker_some. split.
    - apply marker_at_flash_chunk. split; [lia|]. rewrite <- Ep. exact Hp.
    - intros j Hj Hm. apply marker_at_flash_chunk in Hm. destruct Hm as [Hj' Hm].
      apply Hfirst in Hm; [|lia].
      replace (1000 * n + j)%nat with (j + n * 1000)%nat in Hm by lia.
      rewrite Nat.Div0.mod_add, Nat.mod_small in Hm by lia. lia. }
  rewrite (loop_marker lib h0 (flash_chunk mem) s n); [|exact Hdiv| | |lia].
  - rewrite Ei, Nat2Z.id, concat_flash_chunks by lia.
    unfold chunk, flash_chunk. rewrite take_fill; [|lia|rewrite length_take, length_drop; lia].
    rewrite take_take, Nat.min_l by lia. rewrite take_take_drop, <- Ep. reflexivity.
  - intros j _. apply serves_served. exact Hserves.
  - intros j Hj. apply (no_marker_before mem p); [exact Hfirst | lia].
Qed.

(** A marker whose bytes end one chunk and start the next does not stop the
    loop: both chunks are read and the first one is accumulated whole. *)
Lemma read_past_split_marker (s : ASQESpectrometer) (h0 : history) (p : nat) :
  marker_at mem p ->
  only_split_before mem p ->
  (p mod 1000 = 999)%nat ->
  (p / 1000 < 100)%nat ->
  exists (rest : list byte) (h' : history),
    read_calibration_file lib s h0
    = (Ret (take (S p) mem ++ rest), s, h0 ++ flash_reads (S (S (p / 1000))) ++ h').
Proof.
  intros Hp Hfirst Hmod Hdiv.
  pose proof (Nat.div_mod_eq p 1000) as Ep. rewrite Hmod in Ep.
  set (k := (p / 1000)%nat) in *. clearbody k.
  assert (S p < length mem)%nat as Hlen
    by (destruct Hp as [_ H]; apply lookup_lt_Some in H; exact H).
  unfold read_calibration_file.
  change (Z.to_nat (MAX_SIZE / CHUNK_SIZE) + 1)%nat with 101%nat.
  replace 101%nat with (S k + S (99 - k))%nat by lia.
  pose proof (loop_skip lib h0 (flash_chunk mem) s (S k) 0 (S (99 - k)) []) as E.
  change (flash_reads 0) with (@nil event) in E. rewrite app_nil_r in E.
  change (1000 * Z.of_nat 0) with 0 in E. rewrite E; clear E.
  2: lia.
  2: { intros j Hj. split; [apply serves_served; exact Hserves|].
       apply (no_marker_before mem p); [exact Hfirst | lia]. }
  change (0 + S k)%nat with (S k). cbn [app].
  rewrite concat_flash_chunks by lia.
  replace (1000 * S k)%nat with (S p) by lia.
  assert (S k <= 100)%nat as Hk' by lia.
  pose proof (Hserves (h0 ++ flash_reads (S k)) (1000 * Z.of_nat (S k)) 1000
                ltac:(lia) ltac:(lia)) as Hr.
  rewrite (loop_step lib (99 - k) (S k) _ _ s _ Hk' Hr). cbv zeta.
  match goal with |- context [fill x00 1000 ?w] => set (data := fill x00 1000 w) end.
  destruct (find data marker =? -1).
  - destruct (loop_extends s (99 - k) (S (S k)) (99 - k) false (take (S p) mem ++ data)
                ((h0 ++ flash_reads (S k)) ++ [ReadFlash 1000 (1000 * Z.of_nat (S k)) 1000]))
      as (rest & h' & E); [lia|lia|].
    exists (data ++ rest), h'. rewrite E, (flash_reads_S (S k)), <- !app_assoc. reflexivity.
  - rewrite loop_found.
    exists (take (Z.to_nat (find data marker)) data), [].
    rewrite (flash_reads_S (S k)), <- !app_assoc. reflexivity.
Qed.

(** A first marker that starts at offset 100999 or later is out of reach:
    the 101 chunks are read and returned whole. *)
Lemma read_marker_out_of_reach (s : ASQESpectrometer) (h0 : history) (p : nat) :
  marker_at mem p ->
  only_split_before mem p ->
  (1000 * 100 + 999 <= p)%nat ->
  read_calibration_file lib s h0
  = (Ret (take (1000 * 101) mem), s, h0 ++ flash_reads 101).
Proof.
  intros Hp Hfirst Hcap.
  assert (S p < length mem)%nat as Hlen
    by (destruct Hp as [_ H]; apply lookup_lt_Some in H; exact H).
  rewrite (loop_no_marker lib h0 (flash_chunk mem) s).
  - rewrite concat_flash_chunks by lia. reflexivity.
  - intros j Hj. split; [apply serves_served; exact Hserves|].
    apply (no_marker_before mem p); [exact Hfirst | lia].
Qed.

End FlashMemory.

(** claim C8 (as amended): within the 101 chunks that are read, a marker with
    both bytes in one 1000-byte chunk (the start of a chunk included) ends
    the read at its position, whereas a marker whose first byte is the last
    of a chunk is passed over: the chunk is accumulated whole, marker byte
    included, and the next chunk is read.  A first marker beyond the 101
    chunks, or split across the end of the last one, is never detected: the
    101 chunks are returned and nothing more is read. *)
Theorem marker_detection (lib : driver) (mem : list byte) (s : ASQESpectrometer) (h0 : history)
    (p : nat) :
  serves lib mem ->
  marker_at mem p ->
  only_split_before mem p ->
  ((p mod 1000 <> 999)%nat -> (p / 1000 <= 100)%nat ->
   read_calibration_file lib s h0
   = (Ret (take p mem), s, h0 ++ flash_reads (S (p / 1000))))
  /\ ((p mod 1000 = 999)%nat -> (p / 1000 < 100)%nat ->
      exists (rest : list byte) (h' : history),
        read_calibration_file lib s h0
        = (Ret (take (S p) mem ++ rest), s,
           h0 ++ flash_reads (S (S (p / 1000))) ++ h'))
  /\ ((100 < p / 1000)%nat \/ ((p mod 1000 = 999)%nat /\ (p / 1000 = 100)%nat) ->
      read_calibration_file lib s h0
      = (Ret (take (1000 * 101) mem), s, h0 ++ flash_reads 101)).
Proof.
  intros Hserves Hp Hfirst. split; [|split].
  - apply read_to_marker; assumption.
  - apply read_past_split_marker; assumption.
  - intros Hcap. apply (read_marker_out_of_reach lib mem Hserves s h0 p Hp Hfirst).
    pose proof (Nat.div_mod_eq p 1000) as Ep.
    pose proof (Nat.mod_upper_bound p 1000 ltac:(lia)) as Hi.
    set (n := (p / 1000)%nat) in *. set (i := (p mod 1000)%nat) in *.
    clearbody n i. lia.
Qed.

(** Counterexample to claim C8 as written: a marker at offset 101500, both
    bytes inside the chunk that would start at offset 101000, is not
    detected: the reads stop at offset 100000 and the 101000 bytes read are
    returned. *)
Lemma marker_beyond_cap_missed :
  marker_at flash_beyond_cap (1000 * 101 + 500)
  /\ ((1000 * 101 + 500) mod 1000 = 500)%nat
  /\ read_calibration_file (bench flash_beyond_cap 0 [] 0) init_attributes []
     = (Ret (replicate (1000 * 101) x41), init_attributes, flash_reads 101).
Proof.
  assert (find flash_beyond_cap marker = Z.of_nat (1000 * 101 + 500)) as Hfind
    by (vm_compute; reflexivity).
  apply find_marker_some in Hfind. destruct Hfind as [Hm Hf].
  split; [exact Hm|]. split; [vm_compute; reflexivity|].
  assert (serves (bench flash_beyond_cap 0 [] 0) flash_beyond_cap) as Hs
    by (intros h offset size _ _; reflexivity).
  rewrite (read_marker_out_of_reach _ flash_beyond_cap Hs init_attributes []
             (1000 * 101 + 500) Hm).
  - unfold flash_beyond_cap. rewrite take_app_le by (rewrite length_replicate; lia).
    rewrite take_replicate, Nat.min_l by lia. reflexivity.
  - intros q Hq Hq'. destruct (Hf q Hq Hq').
  - lia.
Qed.

(** ** Acquisition *)

Lemma polls_log_S (n : nat) : polls_log (S n) = [Sleep 25; GetStatus] ++ polls_log n.
Proof. reflexivity. Qed.

Lemma polls_log_snoc (n : nat) : polls_log (S n) = polls_log n ++ [Sleep 25; GetStatus].
Proof.
  induction n as [|n IH]; [reflexivity|].
  rewrite polls_log_S, IH at 1. rewrite polls_log_S, app_assoc. reflexivity.
Qed.

Lemma calls_polls_log (kind : event -> bool) (n : nat) :
  kind (Sleep 25) = false -> kind GetStatus = false -> calls kind (polls_log n) = 0%nat.
Proof.
  intros H1 H2. induction n as [|n IH]; [reflexivity|].
  rewrite polls_log_S, calls_app, IH. unfold calls. cbn [List.filter app].
  rewrite H1, H2. reflexivity.
Qed.

Lemma frames_at_shift (lib : driver) (h1 : history) (k : nat) :
  frames_at lib (h1 ++ [Sleep 25; GetStatus]) k = frames_at lib h1 (S k).
Proof. unfold frames_at. rewrite polls_log_S, <- !app_assoc. reflexivity. Qed.

Section Acquisition.

Variable lib : driver.

(** One round of the polling loop. *)
Lemma poll_frames_step (fuel : nat) (s : ASQESpectrometer) (h1 : history) :
  poll_frames lib (S fuel) 0 s h1
  = poll_frames lib fuel (frames_at lib h1 0) s (h1 ++ [Sleep 25; GetStatus]).
Proof.
  cbn [poll_frames Z.eqb]. unfold bind, call, frames_at. cbn [polls_log replicate concat app].
  rewrite <- app_assoc. reflexivity.
Qed.

Lemma poll_frames_stop (fuel : nat) (frames : Z) (s : ASQESpectrometer) (h1 : history) :
  frames <> 0 -> poll_frames lib fuel frames s h1 = (Ret tt, s, h1).
Proof.
  intros H. apply Z.eqb_neq in H.
  destruct fuel; cbn [poll_frames]; rewrite H; reflexivity.
Qed.

(** The loop ends at the first poll that reports a frame. *)
Lemma poll_frames_ready (s : ASQESpectrometer) (n : nat) :
  forall (fuel : nat) (h1 : history),
    (forall k, (k < n)%nat -> frames_at lib h1 k = 0) ->
    frames_at lib h1 n <> 0 ->
    (n < fuel)%nat ->
    poll_frames lib fuel 0 s h1 = (Ret tt, s, h1 ++ polls_log (S n)).
Proof.
  induction n as [|n IH]; intros fuel h1 Hzero Hn Hfuel.
  - destruct fuel as [|fuel]; [lia|].
    rewrite poll_frames_step, poll_frames_stop by exact Hn. reflexivity.
  - destruct fuel as [|fuel]; [lia|].
    rewrite poll_frames_step, (Hzero 0%nat) by lia.
    rewrite IH; [|intros k Hk; rewrite frames_at_shift; apply Hzero; lia
                 |rewrite frames_at_shift; exact Hn|lia].
    rewrite (polls_log_S (S n)), <- app_assoc. reflexivity.
Qed.

(** While no frame is reported the loop goes on, whatever the bound. *)
Lemma poll_frames_waits (s : ASQESpectrometer) (fuel : nat) :
  forall h1 : history,
    (forall k, (k < fuel)%nat -> frames_at lib h1 k = 0) ->
    poll_frames lib fuel 0 s h1 = (Diverge, s, h1 ++ polls_log fuel).
Proof.
  induction fuel as [|fuel IH]; intros h1 Hzero.
  - cbn. rewrite app_nil_r. reflexivity.
  - rewrite poll_frames_step, (Hzero 0%nat) by lia.
    rewrite IH by (intros k Hk; rewrite frames_at_shift; apply Hzero; lia).
    rewrite (polls_log_S fuel), <- app_assoc. reflexivity.
Qed.

(** Either some poll within the bound is the first to report a frame, or
    none does. *)
Lemma first_frame (h1 : history) (fuel : nat) :
  (exists n, (n < fuel)%nat /\ frames_at lib h1 n <> 0
             /\ forall k, (k < n)%nat -> frames_at lib h1 k = 0)
  \/ (forall k, (k < fuel)%nat -> frames_at lib h1 k = 0).
Proof.
  induction fuel as [|fuel [(n & Hn & H1 & H2)|IH]].
  - right. intros k Hk. lia.
  - left. exists n. split; [lia|]. split; assumption.
  - destruct (Z.eq_dec (frames_at lib h1 fuel) 0) as [E|E].
    + right. intros k Hk. destruct (Nat.eq_dec k fuel) as [->|]; [exact E | apply IH; lia].
    + left. exists fuel. split; [lia|]. split; [exact E|]. intros k Hk. apply IH. exact Hk.
Qed.

Lemma capture_frame_run (fuel : nat) (s : ASQESpectrometer) (h0 : history) :
  capture_frame lib fuel s h0
  = match poll_frames lib fuel 0 s (h0 ++ [TriggerAcquisition]) with
    | (Ret _, s', h') => (Ret (frame_buffer lib h'), s', h' ++ [GetFrame 3694 65535])
    | (Raise e, s', h') => (Raise e, s', h')
    | (Diverge, s', h') => (Diverge, s', h')
    end.
Proof.
  unfold capture_frame, bind at 1 2. unfold call at 1. unfold bind.
  change (c_uint16 0) with 0.
  destruct (poll_frames lib fuel 0 s (h0 ++ [TriggerAcquisition])) as [[[[]|e|] s'] h'];
    reflexivity.
Qed.

(** The two ways a capture can go: a frame is reported by the poll numbered
    [n] and the buffer is fetched, or the bound on the polls is reached. *)
Lemma capture_frame_cases (fuel : nat) (s : ASQESpectrometer) (h0 : history) :
  let h1 := h0 ++ [TriggerAcquisition] in
  (exists n, (n < fuel)%nat /\ frames_at lib h1 n <> 0
             /\ (forall k, (k < n)%nat -> frames_at lib h1 k = 0)
             /\ capture_frame lib fuel s h0
                = (Ret (frame_buffer lib (h1 ++ polls_log (S n))), s,
                   h1 ++ polls_log (S n) ++ [GetFrame 3694 65535]))
  \/ ((forall k, (k < fuel)%nat -> frames_at lib h1 k = 0)
      /\ capture_frame lib fuel s h0 = (Diverge, s, h1 ++ polls_log fuel)).
Proof.
  intros h1. rewrite capture_frame_run. fold h1.
  destruct (first_frame h1 fuel) as [(n & Hn & H1 & H2)|H].
  - left. exists n. rewrite (poll_frames_ready s n fuel h1 H2 H1 Hn), <- app_assoc. auto.
  - right. rewrite (poll_frames_waits s fuel h1 H). auto.
Qed.

Lemma length_frame_buffer (h : history) : length (frame_buffer lib h) = 3694%nat.
Proof. apply length_fill. Qed.

Lemma capture_frame_length (fuel : nat) (s s' : ASQESpectrometer) (h h' : history) (data : list Z) :
  capture_frame lib fuel s h = (Ret data, s', h') -> length data = 3694%nat.
Proof.
  intros E.
  destruct (capture_frame_cases fuel s h) as [(n & _ & _ & _ & E')|[_ E']];
    rewrite E' in E; [|discriminate].
  injection E as <- _ _. apply length_frame_buffer.
Qed.

Lemma frame_buffer_range (h : history) :
  Forall (fun x => 0 <= x < 65536) (frame_buffer lib h).
Proof.
  unfold frame_buffer, fill. apply Forall_take, Forall_app. split.
  - apply Forall_forall. intros x Hx. apply list_elem_of_fmap in Hx.
    destruct Hx as (y & -> & _). unfold c_uint16. apply Z.mod_pos_bound. lia.
  - apply Forall_forall. intros x Hx. apply elem_of_replicate in Hx. lia.
Qed.

End Acquisition.

(** claim C9: [capture_frame] issues one trigger, then sleeps 25 ms and
    queries the status, again and again, until a query reports a nonzero
    frame count; at the first such query it fetches and returns a buffer of
    3694 16-bit samples.  It returns exactly when some poll reports a frame:
    while every poll reports zero it is still polling, whatever the number of
    polls allowed. *)
Theorem capture_frame_polling (lib : driver) (s : ASQESpectrometer) (h0 : history) :
  let h1 := h0 ++ [TriggerAcquisition] in
  (forall n fuel : nat,
      (forall k, (k < n)%nat -> frames_at lib h1 k = 0) ->
      frames_at lib h1 n <> 0 ->
      (n < fuel)%nat ->
      capture_frame lib fuel s h0
      = (Ret (frame_buffer lib (h1 ++ polls_log (S n))), s,
         h1 ++ polls_log (S n) ++ [GetFrame 3694 65535]))
  /\ (forall fuel : nat,
         (forall k, (k < fuel)%nat -> frames_at lib h1 k = 0) ->
         capture_frame lib fuel s h0 = (Diverge, s, h1 ++ polls_log fuel))
  /\ (forall (fuel : nat) (buffer : list Z) (s' : ASQESpectrometer) (h' : history),
         capture_frame lib fuel s h0 = (Ret buffer, s', h') ->
         exists n, (n < fuel)%nat /\ frames_at lib h1 n <> 0
                   /\ (forall k, (k < n)%nat -> frames_at lib h1 k = 0)
                   /\ h' = h1 ++ polls_log (S n) ++ [GetFrame 3694 65535])
  /\ (forall h : history,
         length (frame_buffer lib h) = 3694%nat
         /\ Forall (fun x => 0 <= x < 65536) (frame_buffer lib h)).
Proof.
  intros h1. repeat split.
  - intros n fuel Hzero Hn Hfuel. rewrite capture_frame_run. fold h1.
    rewrite (poll_frames_ready lib s n fuel h1 Hzero Hn Hfuel), <- app_assoc. reflexivity.
  - intros fuel Hzero. rewrite capture_frame_run. fold h1.
    rewrite (poll_frames_waits lib s fuel h1 Hzero). reflexivity.
  - intros fuel buffer s' h' E.
    destruct (capture_frame_cases lib fuel s h0) as [(n & Hn & H1 & H2 & E')|[_ E']];
      rewrite E' in E; [|discriminate].
    exists n. injection E as _ _ <-. auto.
  - apply length_frame_buffer.
  - apply frame_buffer_range.
Qed.

(** claim C10: the buffer that [capture_frame] hands to [getFrame] has 3694
    elements, while the [max_len] passed with it is 65535, more than the
    buffer holds. *)
Theorem capture_frame_max_len (lib : driver) (fuel : nat) (s s' : ASQESpectrometer)
    (h0 h' : history) (buffer : list Z) :
  capture_frame lib fuel s h0 = (Ret buffer, s', h') ->
  exists h : history,
    h' = h ++ [GetFrame 3694 65535]
    /\ buffer = fill 0 3694 (map c_uint16 (getFrame lib h 65535).2)
    /\ length buffer = 3694%nat
    /\ Z.of_nat (length buffer) < 65535.
Proof.
  intros E.
  destruct (capture_frame_cases lib fuel s h0) as [(n & _ & _ & _ & E')|[_ E']];
    rewrite E' in E; [|discriminate].
  injection E as <- _ <-.
  exists ((h0 ++ [TriggerAcquisition]) ++ polls_log (S n)).
  rewrite length_frame_buffer.
  split; [apply (app_assoc _ (polls_log (S n)))|]. split; [reflexivity|]. split; reflexivity.
Qed.




(** ** Background subtraction *)

Lemma length_slice {A} (lo hi : Z) (l : list A) :
  length (slice lo hi l) = Nat.min (Z.to_nat (hi - lo)) (length l - Z.to_nat lo).
Proof. unfold slice. rewrite length_take, length_drop. reflexivity. Qed.

Lemma lookup_slice {A} (lo hi : Z) (l : list A) (j : nat) :
  (j < Z.to_nat (hi - lo))%nat -> slice lo hi l !! j = l !! (Z.to_nat lo + j)%nat.
Proof. intros H. unfold slice. rewrite lookup_take_lt by exact H. apply lookup_drop. Qed.

(** The arithmetic of [subtract_background] on a buffer of 3694 samples,
    with the sums and the windows written out. *)
Lemma subtract_background_of_window (data : list Z) :
  length data = 3694%nat ->
  length (subtract_background_of data) = 3653%nat
  /\ forall i x,
       (i < 3653)%nat -> data !! (32 + i)%nat = Some x ->
       subtract_background_of data !! i
       = Some (PrimFloat.sub (float_of_Z x)
                 (PrimFloat.div
                    (PrimFloat.add
                       (PrimFloat.div
                          (float_of_Z (foldr Z.add 0 (take 16 (drop 15 data)))) 16%float)
                       (PrimFloat.div
                          (float_of_Z (foldr Z.add 0 (take 6 (drop 3686 data)))) 6%float))
                    2%float)).
Proof.
  intros H. split.
  - unfold subtract_background_of. rewrite length_map, length_slice, H. reflexivity.
  - intros i x Hi Hx. unfold subtract_background_of.
    rewrite list_lookup_fmap, lookup_slice
      by (change (Z.to_nat (3685 - 32)) with 3653%nat; exact Hi).
    change (Z.to_nat 32) with 32%nat. rewrite Hx. cbn [fmap option_fmap option_map].
    unfold background, np_mean. rewrite !length_slice, H. reflexivity.
Qed.

(** claim C5: whenever [capture_frame] returns a frame, [subtract_background]
    returns too, with the same calls: the frame has 3694 samples, [devd] is
    the sum of the 16 samples at indices 15 to 30 over 16, [devd2] the sum of
    the 6 samples at indices 3686 to 3691 over 6, the background is half
    their sum, and the result is the 3653 samples at indices 32 to 3684, each
    minus the background.  So the method returns as soon as a poll reports a
    frame, and it never raises, whatever the frame holds. *)
Theorem subtract_background_window (lib : driver) (s : ASQESpectrometer) (h0 : history) :
  (forall fuel data s' h',
      capture_frame lib fuel s h0 = (Ret data, s', h') ->
      exists r : list float,
        subtract_background lib fuel s h0 = (Ret r, s', h')
        /\ length data = 3694%nat
        /\ length r = 3653%nat
        /\ forall i x,
             (i < 3653)%nat -> data !! (32 + i)%nat = Some x ->
             r !! i
             = Some (PrimFloat.sub (float_of_Z x)
                       (PrimFloat.div
                          (PrimFloat.add
                             (PrimFloat.div
                                (float_of_Z (foldr Z.add 0 (take 16 (drop 15 data))))
                                16%float)
                             (PrimFloat.div
                                (float_of_Z (foldr Z.add 0 (take 6 (drop 3686 data))))
                                6%float))
                          2%float)))
  /\ (forall n fuel : nat,
         (forall k, (k < n)%nat -> frames_at lib (h0 ++ [TriggerAcquisition]) k = 0) ->
         frames_at lib (h0 ++ [TriggerAcquisition]) n <> 0 ->
         (n < fuel)%nat ->
         exists r : list float,
           subtract_background lib fuel s h0
           = (Ret r, s,
              (h0 ++ [TriggerAcquisition]) ++ polls_log (S n) ++ [GetFrame 3694 65535])
           /\ length r = 3653%nat)
  /\ (forall fuel e, result (subtract_background lib fuel s h0) <> Raise e).
Proof.
  assert (forall fuel data s' h',
            capture_frame lib fuel s h0 = (Ret data, s', h') ->
            subtract_background lib fuel s h0 = (Ret (subtract_background_of data), s', h')
            /\ length data = 3694%nat) as Hret.
  { intros fuel data s' h' E. split.
    - unfold subtract_background, bind. rewrite E. reflexivity.
    - eapply capture_frame_length. exact E. }
  split; [|split].
  - intros fuel data s' h' E. destruct (Hret fuel data s' h' E) as [Er Ld].
    destruct (subtract_background_of_window data Ld) as [Lr Hr].
    exists (subtract_background_of data).
    split; [exact Er|]. split; [exact Ld|]. split; [exact Lr | exact Hr].
  - intros n fuel. set (h1 := h0 ++ [TriggerAcquisition]). intros Hzero Hn Hfuel.
    assert (capture_frame lib fuel s h0
            = (Ret (frame_buffer lib (h1 ++ polls_log (S n))), s,
               h1 ++ polls_log (S n) ++ [GetFrame 3694 65535]))
      as E.
    { rewrite capture_frame_run. fold h1.
      rewrite (poll_frames_ready lib s n fuel h1 Hzero Hn Hfuel), <- app_assoc.
      reflexivity. }
    destruct (Hret _ _ _ _ E) as [Er Ld].
    eexists. split; [exact Er|]. apply subtract_background_of_window. exact Ld.
  - intros fuel e. unfold subtract_background, bind.
    destruct (capture_frame_cases lib fuel s h0) as [(n & _ & _ & _ & E)|[_ E]];
      rewrite E; discriminate.
Qed.

(** ** Calibration loading *)

Section Calibration.

Variable lib : driver.
Variable py_float np_float : list Z -> option float.

Local Abbreviation load_calibration_data := (load_calibration_data lib py_float np_float).
Local Abbreviation normalize_spectrum := (normalize_spectrum lib py_float np_float).
Local Abbreviation get_calibrated_spectrum :=
  (get_calibrated_spectrum lib py_float np_float).

(** The flash reader leaves the object alone and logs flash reads only. *)
Lemma read_calibration_loop_log (s : ASQESpectrometer) (fuel : nat) :
  forall (offset : Z) (found : bool) (acc : list byte) (h : history),
  exists (o : outcome (list byte)) (hr : history),
    read_calibration_loop lib fuel offset found acc s h = (o, s, h ++ hr)
    /\ Forall (fun e => is_flash_read e = true) hr.
Proof.
  induction fuel as [|fuel IH]; intros offset found acc h.
  - cbn [read_calibration_loop].
    destruct ((offset <=? MAX_SIZE) && negb found);
      eexists _, []; rewrite app_nil_r; split; try reflexivity; constructor.
  - cbn [read_calibration_loop].
    destruct ((offset <=? MAX_SIZE) && negb found).
    2: { eexists _, []. rewrite app_nil_r. split; [reflexivity | constructor]. }
    unfold bind at 1. rewrite read_flash_run. cbv zeta.
    destruct ((readFlash lib h (c_uint32 offset) (c_uint32 CHUNK_SIZE)).1 =? 0).
    2: { eexists _, [_]. split; [reflexivity|]. repeat constructor. }
    match goal with |- context [fill x00 ?n ?w] => set (data := fill x00 n w) end.
    destruct (negb (find data marker =? -1)).
    + edestruct IH as (o & hr & -> & Hhr). eexists o, (_ :: hr).
      rewrite <- app_assoc. split; [reflexivity|]. constructor; [reflexivity | exact Hhr].
    + edestruct IH as (o & hr & -> & Hhr). eexists o, (_ :: hr).
      rewrite <- app_assoc. split; [reflexivity|]. constructor; [reflexivity | exact Hhr].
Qed.

Lemma read_calibration_file_log (s : ASQESpectrometer) (h : history) :
  exists (o : outcome (list byte)) (hr : history),
    read_calibration_file lib s h = (o, s, h ++ hr)
    /\ Forall (fun e => is_flash_read e = true) hr.
Proof. apply read_calibration_loop_log. Qed.

Lemma load_cached (s : ASQESpectrometer) (h : history) :
  _calibration_data_loaded s = true -> load_calibration_data s h = (Ret tt, s, h).
Proof. intros H. unfold load_calibration_data, bind, getattr. rewrite H. reflexivity. Qed.

(** The first load: read the blob, decode it, split it and parse the
    lines. *)
Lemma load_run (s : ASQESpectrometer) (h : history) :
  _calibration_data_loaded s = false ->
  load_calibration_data s h
  = match read_calibration_file lib s h with
    | (Ret calib, s0, h') =>
        match utf8_decode calib with
        | None => (Raise UnicodeDecodeError, s0, h')
        | Some decode_data =>
            (parse_lines py_float np_float (splitlines decode_data) s0, h')
        end
    | (Raise e, s0, h') => (Raise e, s0, h')
    | (Diverge, s0, h') => (Diverge, s0, h')
    end.
Proof.
  intros H. unfold load_calibration_data, bind at 1. unfold getattr. rewrite H.
  unfold bind at 1.
  destruct (read_calibration_file lib s h) as [[[calib|e|] s0] h']; try reflexivity.
  destruct (utf8_decode calib) as [decode_data|]; [|reflexivity].
  unfold parse_lines, np_array_float.
  destruct (splitlines decode_data !! 1%nat ≫= py_float) as [v|]; [|reflexivity].
  unfold bind at 1. unfold setattr at 1. unfold bind at 1.
  destruct (mapM np_float (slice 12 3665 (splitlines decode_data))) as [w|]; [|reflexivity].
  unfold ret at 1. unfold bind at 1. unfold setattr at 1. unfold bind at 1.
  destruct (mapM np_float (slice 3666 7319 (splitlines decode_data))) as [n|]; [|reflexivity].
  unfold ret at 1. unfold bind at 1. unfold setattr at 1. unfold bind at 1.
  destruct (mapM np_float (slice 7320 10973 (splitlines decode_data))) as [p|]; reflexivity.
Qed.

Lemma parse_lines_loaded (lines : list (list Z)) (s s1 : ASQESpectrometer) (u : unit) :
  parse_lines py_float np_float lines s = (Ret u, s1) -> _calibration_data_loaded s1 = true.
Proof.
  unfold parse_lines.
  destruct (lines !! 1%nat ≫= py_float) as [v|]; [|discriminate].
  destruct (mapM np_float (slice 12 3665 lines)) as [w|]; [|discriminate].
  destruct (mapM np_float (slice 3666 7319 lines)) as [n|]; [|discriminate].
  destruct (mapM np_float (slice 7320 10973 lines)) as [p|]; [|discriminate].
  intros E. assert (s1 = with_calibration v w n p s) as -> by congruence. reflexivity.
Qed.

(** A load that returns leaves the flag set. *)
Lemma load_ret_loaded (s s1 : ASQESpectrometer) (h h1 : history) (u : unit) :
  load_calibration_data s h = (Ret u, s1, h1) -> _calibration_data_loaded s1 = true.
Proof.
  destruct (_calibration_data_loaded s) eqn:Hl.
  - rewrite load_cached by exact Hl. intros E.
    assert (s1 = s) as -> by congruence. exact Hl.
  - rewrite load_run by exact Hl.
    destruct (read_calibration_file lib s h) as [[[calib|e|] s0] h']; try discriminate.
    destruct (utf8_decode calib) as [text|]; [|discriminate].
    destruct (parse_lines py_float np_float (splitlines text) s0) as [o s2] eqn:E.
    intros E'. assert (o = Ret u /\ s2 = s1) as [-> ->] by (split; congruence).
    eapply parse_lines_loaded. exact E.
Qed.

(** A load only adds flash reads to the history. *)
Lemma load_log (s : ASQESpectrometer) (h : history) :
  exists (hr : history),
    history_after (load_calibration_data s h) = h ++ hr
    /\ Forall (fun e => is_flash_read e = true) hr.
Proof.
  destruct (_calibration_data_loaded s) eqn:Hl.
  - rewrite load_cached by exact Hl. exists []. rewrite app_nil_r. split; [reflexivity|constructor].
  - rewrite load_run by exact Hl.
    destruct (read_calibration_file_log s h) as (o & hr & -> & Hhr).
    exists hr. split; [|exact Hhr].
    destruct o as [calib|e|]; try reflexivity.
    destruct (utf8_decode calib); reflexivity.
Qed.

(** ** The pipeline *)

Lemma get_calibrated_loaded (fuel : nat) (s : ASQESpectrometer) (h : history) :
  _calibration_data_loaded s = true ->
  get_calibrated_spectrum fuel s h
  = match capture_frame lib fuel s h with
    | (Ret data, s', h') => (stages s' data, s', h')
    | (Raise e, s', h') => (Raise e, s', h')
    | (Diverge, s', h') => (Diverge, s', h')
    end.
Proof.
  intros H. unfold get_calibrated_spectrum, normalize_spectrum, subtract_background.
  unfold bind, getattr, ret. rewrite H. cbn [negb].
  destruct (capture_frame lib fuel s h) as [[[data|e|] s'] h']; try reflexivity.
  unfold stages, inplace, raise, ret, id.
  destruct (norm_coef s') as [c|]; [|reflexivity].
  destruct (np_inplace PrimFloat.div (subtract_background_of data) c) as [r|]; [|reflexivity].
  destruct (bck_aT s') as [b|]; [|reflexivity].
  destruct (int_as_float (exposure_time s')) as [exposure|]; [|reflexivity].
  destruct (power_coef s') as [coef|]; [|reflexivity].
  destruct (np_inplace PrimFloat.mul r _); reflexivity.
Qed.

Lemma normalize_loaded_log (fuel : nat) (s : ASQESpectrometer) (h : history) :
  _calibration_data_loaded s = true ->
  exists o, normalize_spectrum fuel s h
            = (o, s, history_after (capture_frame lib fuel s h)).
Proof.
  intros H. unfold normalize_spectrum, subtract_background.
  unfold bind, getattr, ret. rewrite H. cbn [negb].
  destruct (capture_frame_cases lib fuel s h) as [(n & _ & _ & _ & E)|[_ E]]; rewrite E.
  - unfold inplace, raise, ret. destruct (norm_coef s) as [c|]; [|eexists; reflexivity].
    destruct (np_inplace _ _ c); eexists; reflexivity.
  - eexists; reflexivity.
Qed.

(** A first call loads the calibration and then proceeds as any later
    call. *)
Lemma get_calibrated_unloaded (fuel : nat) (s : ASQESpectrometer) (h : history) :
  _calibration_data_loaded s = false ->
  get_calibrated_spectrum fuel s h
  = match load_calibration_data s h with
    | (Ret _, s1, h1) => get_calibrated_spectrum fuel s1 h1
    | (Raise e, s1, h1) => (Raise e, s1, h1)
    | (Diverge, s1, h1) => (Diverge, s1, h1)
    end.
Proof.
  intros H. unfold get_calibrated_spectrum, normalize_spectrum.
  unfold bind, getattr, ret. rewrite H. cbn [negb].
  destruct (load_calibration_data s h) as [[[u|e|] s1] h1] eqn:E; try reflexivity.
  rewrite (load_ret_loaded _ _ _ _ _ E). reflexivity.
Qed.

Lemma calls_capture (fuel : nat) (s : ASQESpectrometer) (h : history) :
  exists hnew, history_after (capture_frame lib fuel s h) = h ++ hnew
               /\ calls is_trigger hnew = 1%nat /\ calls is_flash_read hnew = 0%nat.
Proof.
  destruct (capture_frame_cases lib fuel s h) as [(n & _ & _ & _ & E)|[_ E]]; rewrite E;
    unfold history_after; cbn [snd]; rewrite <- app_assoc; eexists; (split; [reflexivity|]);
    rewrite !calls_app, !calls_polls_log by reflexivity; split; reflexivity.
Qed.

Lemma calls_flash_only (kind : event -> bool) (hr : history) :
  (forall e, is_flash_read e = true -> kind e = false) ->
  Forall (fun e => is_flash_read e = true) hr -> calls kind hr = 0%nat.
Proof.
  intros Hk H. induction H as [|e hr He _ IH]; [reflexivity|].
  unfold calls in *. cbn [List.filter]. rewrite (Hk e He). exact IH.
Qed.

(** A call triggers the hardware once when the calibration is there or has
    been loaded, and not at all when loading it fails. *)
Lemma get_calibrated_triggers (fuel : nat) (s : ASQESpectrometer) (h : history) :
  exists hnew,
    history_after (get_calibrated_spectrum fuel s h) = h ++ hnew
    /\ calls is_trigger hnew
       = match result (load_calibration_data s h) with
         | Ret _ => 1%nat
         | _ => 0%nat
         end.
Proof.
  assert (forall s h, _calibration_data_loaded s = true ->
            exists hnew,
              history_after (get_calibrated_spectrum fuel s h) = h ++ hnew
              /\ calls is_trigger hnew = 1%nat) as Hloaded.
  { clear s h. intros s h Hl. rewrite get_calibrated_loaded by exact Hl.
    destruct (calls_capture fuel s h) as (hnew & Eh & H1 & _).
    exists hnew. split; [|exact H1]. rewrite <- Eh.
    destruct (capture_frame lib fuel s h) as [[[data|e|] s'] h']; reflexivity. }
  destruct (_calibration_data_loaded s) eqn:Hl.
  - rewrite load_cached by exact Hl. apply Hloaded. exact Hl.
  - rewrite get_calibrated_unloaded by exact Hl.
    destruct (load_log s h) as (hr & Eh & Hhr).
    assert (calls is_trigger hr = 0%nat) as H0.
    { apply calls_flash_only; [|exact Hhr]. intros [] He; try discriminate; reflexivity. }
    destruct (load_calibration_data s h) as [[[u|e|] s1] h1] eqn:El;
      unfold history_after in Eh; cbn [snd] in Eh; subst h1;
      unfold result; cbn [fst];
      [|exists hr; split; [reflexivity | exact H0]..].
    pose proof (load_ret_loaded _ _ _ _ _ El) as Hl1.
    destruct (Hloaded s1 (h ++ hr) Hl1) as (hnew & E & H1).
    exists (hr ++ hnew). rewrite E, <- app_assoc, calls_app, H0, H1. split; reflexivity.
Qed.

(** A call that returns has logged flash reads (on a first call only), then
    one capture; it leaves the flag set. *)
Lemma get_calibrated_log (fuel : nat) (s s' : ASQESpectrometer) (h h' : history)
    (r : option (list float) * list float) :
  get_calibrated_spectrum fuel s h = (Ret r, s', h') ->
  exists hr hnew,
    h' = h ++ hr ++ hnew
    /\ Forall (fun e => is_flash_read e = true) hr
    /\ calls is_trigger hnew = 1%nat
    /\ calls is_flash_read hnew = 0%nat
    /\ _calibration_data_loaded s' = true.
Proof.
  assert (forall s h, _calibration_data_loaded s = true ->
            get_calibrated_spectrum fuel s h = (Ret r, s', h') ->
            exists hnew, h' = h ++ hnew /\ calls is_trigger hnew = 1%nat
                         /\ calls is_flash_read hnew = 0%nat /\ s' = s) as Hloaded.
  { clear s h. intros s h Hl E. rewrite get_calibrated_loaded in E by exact Hl.
    destruct (calls_capture fuel s h) as (hnew & Eh & H1 & H2).
    destruct (capture_frame_cases lib fuel s h) as [(n & _ & _ & _ & E')|[_ E']];
      rewrite E' in E, Eh; [|discriminate].
    exists hnew. unfold history_after in Eh. cbn [snd] in Eh.
    split; [congruence|]. split; [exact H1|]. split; [exact H2 | congruence]. }
  intros E. destruct (_calibration_data_loaded s) eqn:Hl.
  - destruct (Hloaded s h Hl E) as (hnew & -> & H1 & H2 & ->).
    exists [], hnew. split; [reflexivity|]. split; [constructor|]. auto.
  - rewrite get_calibrated_unloaded in E by exact Hl.
    destruct (load_log s h) as (hr & Eh & Hhr).
    destruct (load_calibration_data s h) as [[[u|e|] s1] h1] eqn:El; try discriminate.
    unfold history_after in Eh. cbn [snd] in Eh. subst h1.
    pose proof (load_ret_loaded _ _ _ _ _ El) as Hl1.
    destruct (Hloaded s1 (h ++ hr) Hl1 E) as (hnew & -> & H1 & H2 & ->).
    exists hr, hnew. rewrite <- app_assoc. auto.
Qed.

End Calibration.

(** claim C7: once a load has returned the flag is set, and from then on
    [load_calibration_data] returns at once, and [normalize_spectrum] and
    [get_calibrated_spectrum] leave every attribute of the object as it is
    and log no flash read, whatever the flash would now answer; so a second
    [get_calibrated_spectrum] reads no flash and works from the values cached
    by the first. *)
Theorem calibration_memoized (lib : driver) (py_float np_float : list Z -> option float) :
  (forall s h u s1 h1,
      load_calibration_data lib py_float np_float s h = (Ret u, s1, h1) ->
      _calibration_data_loaded s1 = true)
  /\ (forall s h,
         _calibration_data_loaded s = true ->
         load_calibration_data lib py_float np_float s h = (Ret tt, s, h))
  /\ (forall fuel s h,
         _calibration_data_loaded s = true ->
         exists o hnew,
           normalize_spectrum lib py_float np_float fuel s h = (o, s, h ++ hnew)
           /\ calls is_flash_read hnew = 0%nat)
  /\ (forall fuel s h,
         _calibration_data_loaded s = true ->
         exists o hnew,
           get_calibrated_spectrum lib py_float np_float fuel s h = (o, s, h ++ hnew)
           /\ calls is_flash_read hnew = 0%nat
           /\ forall data h', capture_frame lib fuel s h = (Ret data, s, h') ->
                              o = stages s data)
  /\ (forall fuel s h r s1 h1,
         get_calibrated_spectrum lib py_float np_float fuel s h = (Ret r, s1, h1) ->
         forall (lib' : driver) fuel' h2,
         exists o hnew,
           get_calibrated_spectrum lib' py_float np_float fuel' s1 h2 = (o, s1, h2 ++ hnew)
           /\ calls is_flash_read hnew = 0%nat).
Proof.
  assert (forall lib fuel s h,
         _calibration_data_loaded s = true ->
         exists o hnew,
           get_calibrated_spectrum lib py_float np_float fuel s h = (o, s, h ++ hnew)
           /\ calls is_flash_read hnew = 0%nat
           /\ forall data h', capture_frame lib fuel s h = (Ret data, s, h') ->
                              o = stages s data) as Hcal.
  { intros lib0 fuel s h Hl. rewrite get_calibrated_loaded by exact Hl.
    destruct (calls_capture lib0 fuel s h) as (hnew & Eh & _ & H2).
    destruct (capture_frame_cases lib0 fuel s h) as [(n & _ & _ & _ & E)|[_ E]];
      rewrite E in Eh |- *; unfold history_after in Eh; cbn [snd] in Eh; rewrite Eh;
      eexists _, hnew; (split; [reflexivity|]); (split; [exact H2|]);
      intros data h' E'; congruence. }
  split; [intros s h u s1 h1; apply load_ret_loaded|].
  split; [intros s h; apply load_cached|].
  split; [|split].
  - intros fuel s h Hl.
    destruct (normalize_loaded_log lib py_float np_float fuel s h Hl) as (o & E).
    destruct (calls_capture lib fuel s h) as (hnew & Eh & _ & H2).
    exists o, hnew. rewrite E, Eh. auto.
  - apply Hcal.
  - intros fuel s h r s1 h1 E lib' fuel' h2.
    destruct (get_calibrated_log lib py_float np_float fuel s s1 h h1 r E)
      as (_ & _ & _ & _ & _ & _ & Hl).
    destruct (Hcal lib' fuel' s1 h2 Hl) as (o & hnew & E' & H & _).
    exists o, hnew. auto.
Qed.

Lemma length_calibrated (data : list Z) (n p : list float) (e : Z) (b : float) :
  length data = 3694%nat -> length n = 3653%nat -> length p = 3653%nat ->
  length (calibrated data n p e b) = 3653%nat.
Proof.
  intros Hd Hn Hp. unfold calibrated, subtract_background_of.
  rewrite !length_zip_with, !length_map, length_slice, Hd, Hn, Hp. reflexivity.
Qed.

Lemma lookup_calibrated (data : list Z) (n p : list float) (e : Z) (b : float)
    (i : nat) (c ni pi : float) :
  subtract_background_of data !! i = Some c -> n !! i = Some ni -> p !! i = Some pi ->
  calibrated data n p e b !! i
  = Some (PrimFloat.mul (PrimFloat.div c ni)
            (PrimFloat.div pi (PrimFloat.mul (float_of_Z e) b))).
Proof.
  intros Hc Hn Hp. unfold calibrated.
  rewrite !lookup_zip_with, Hc, Hn, list_lookup_fmap, Hp. reflexivity.
Qed.

Lemma get_calibrated_run (lib : driver) (py_float np_float : list Z -> option float)
    (fuel : nat) (s : ASQESpectrometer) (h h' : history) (data : list Z) (n p : list float)
    (b : float) :
  _calibration_data_loaded s = true ->
  norm_coef s = Some n -> power_coef s = Some p -> bck_aT s = Some b ->
  length n = 3653%nat -> length p = 3653%nat ->
  capture_frame lib fuel s h = (Ret data, s, h') ->
  length data = 3694%nat
  /\ (forall exposure, int_as_float (exposure_time s) = Some exposure ->
        get_calibrated_spectrum lib py_float np_float fuel s h
        = (Ret (wavelength s, calibrated data n p (exposure_time s) b), s, h'))
  /\ (int_as_float (exposure_time s) = None ->
      get_calibrated_spectrum lib py_float np_float fuel s h = (Raise OverflowError, s, h')).
Proof.
  intros Hl Hn Hp Hb Ln Lp Hc.
  assert (length data = 3694%nat) as Ld.
  { eapply capture_frame_length. exact Hc. }
  split; [exact Ld|].
  assert (length (subtract_background_of data) = 3653%nat) as Ls.
  { unfold subtract_background_of. rewrite length_map, length_slice, Ld. reflexivity. }
  assert (np_inplace PrimFloat.div (subtract_background_of data) n
          = Some (zip_with PrimFloat.div (subtract_background_of data) n)) as En.
  { unfold np_inplace. rewrite Ln, Ls, Nat.eqb_refl. reflexivity. }
  rewrite get_calibrated_loaded, Hc by exact Hl.
  unfold stages. rewrite Hn, Hb, En. split.
  - intros exposure He. rewrite He, Hp, (int_as_float_value _ _ He). unfold np_inplace.
    rewrite length_map, length_zip_with, Lp, Ls, Ln, Nat.min_id, Nat.eqb_refl. reflexivity.
  - intros He. rewrite He. reflexivity.
Qed.

(** claim C6 (as amended): a call to [get_calibrated_spectrum] triggers the
    hardware exactly once, except a call whose calibration load fails, which
    does not trigger at all.  With calibration arrays of 3653 entries and a
    captured frame, its intensities are, for each index of the window,
    [(corrected[i] / norm_coef[i]) * (power_coef[i] / (exposure_time * bck_aT))],
    the factor on the right being computed first and [exposure_time] being
    converted to the nearest float; an [exposure_time] too large for a float
    raises [OverflowError] instead.  A uniform frame of 1000s with
    [norm_coef] 2.0, [power_coef] 4.0, [exposure_time] 500 and [bck_aT] 1.0
    gives 0.0 everywhere. *)
Theorem get_calibrated_spectrum_formula :
  (forall lib py_float np_float fuel s h,
      exists hnew,
        history_after (get_calibrated_spectrum lib py_float np_float fuel s h) = h ++ hnew
        /\ calls is_trigger hnew
           = match result (load_calibration_data lib py_float np_float s h) with
             | Ret _ => 1%nat
             | _ => 0%nat
             end)
  /\ (forall lib py_float np_float fuel s h h' data n p b,
         _calibration_data_loaded s = true ->
         norm_coef s = Some n -> power_coef s = Some p -> bck_aT s = Some b ->
         length n = 3653%nat -> length p = 3653%nat ->
         capture_frame lib fuel s h = (Ret data, s, h') ->
         (forall exposure,
             int_as_float (exposure_time s) = Some exposure ->
             exists out,
               get_calibrated_spectrum lib py_float np_float fuel s h
               = (Ret (wavelength s, out), s, h')
               /\ length out = 3653%nat
               /\ forall i c ni pi,
                    subtract_background_of data !! i = Some c ->
                    n !! i = Some ni -> p !! i = Some pi ->
                    out !! i
                    = Some (PrimFloat.mul (PrimFloat.div c ni)
                              (PrimFloat.div pi (PrimFloat.mul exposure b))))
         /\ (int_as_float (exposure_time s) = None ->
             get_calibrated_spectrum lib py_float np_float fuel s h
             = (Raise OverflowError, s, h')))
  /\ (int_as_float 500 = Some 500%float
      /\ int_as_float (2 ^ 63 + 10) = Some 9223372036854775808%float
      /\ int_as_float (2 ^ 1024 - 2 ^ 970 - 1) = Some 0x1.fffffffffffffp+1023%float
      /\ int_as_float (2 ^ 1024 - 2 ^ 970) = None)
  /\ (forall lib py_float np_float fuel h h',
         capture_frame lib fuel (flat_object 500 1 2 4) h
         = (Ret uniform_frame, flat_object 500 1 2 4, h') ->
         get_calibrated_spectrum lib py_float np_float fuel (flat_object 500 1 2 4) h
         = (Ret (Some (replicate 3653 1%float), replicate 3653 0%float),
            flat_object 500 1 2 4, h')).
Proof.
  split; [|split; [|split]].
  - intros lib pf nf fuel s h. apply get_calibrated_triggers.
  - intros lib pf nf fuel s h h' data n p b Hl Hn Hp Hb Ln Lp Hc.
    destruct (get_calibrated_run lib pf nf fuel s h h' data n p b Hl Hn Hp Hb Ln Lp Hc)
      as (Ld & E & Eo).
    split; [|exact Eo].
    intros exposure He. exists (calibrated data n p (exposure_time s) b).
    split; [apply (E exposure); exact He|]. split; [apply length_calibrated; assumption|].
    intros i c ni pi. rewrite (int_as_float_value _ _ He). apply lookup_calibrated.
  - split; [vm_compute; reflexivity|]. split; [vm_compute; reflexivity|].
    split; vm_compute; reflexivity.
  - intros lib pf nf fuel h h' Hc.
    destruct (get_calibrated_run lib pf nf fuel (flat_object 500 1 2 4) h h'
                uniform_frame (replicate 3653 2%float) (replicate 3653 4%float) 1%float
                eq_refl eq_refl eq_refl eq_refl
                (length_replicate _ _) (length_replicate _ _) Hc) as (_ & E & _).
    rewrite (E 500%float) by (vm_compute; reflexivity). vm_compute. reflexivity.
Qed.

(** Counterexamples to claim C6 as written.  With [exposure_time] 10, all
    coefficients 1.0 and a corrected first sample of 3.0, the code returns
    [3.0 * (1.0 / 10.0)], which is not [(3.0 * 1.0) / 10.0].  And on a flash
    whose text has one line the call fails while loading, before any
    trigger. *)
Lemma get_calibrated_spectrum_claim_fails :
  (let s := flat_object 10 1 1 1 in
   let lib := bench [] 0 raised_frame 0 in
   exists out c ni pi b,
     capture_frame lib 1 s [] = (Ret raised_frame, s,
                                 [TriggerAcquisition; Sleep 25; GetStatus;
                                  GetFrame 3694 65535])
     /\ result (get_calibrated_spectrum lib digits_float digits_float 1 s [])
        = Ret (wavelength s, out)
     /\ subtract_background_of raised_frame !! 0%nat = Some c
     /\ norm_coef s ≫= (.!! 0%nat) = Some ni
     /\ power_coef s ≫= (.!! 0%nat) = Some pi
     /\ bck_aT s = Some b
     /\ out !! 0%nat
        <> Some (PrimFloat.div (PrimFloat.mul (PrimFloat.div c ni) pi)
                   (PrimFloat.mul (float_of_Z (exposure_time s)) b)))
  /\ get_calibrated_spectrum (bench flash_one_line 0 uniform_frame 0) digits_float
       digits_float 1 init_attributes []
     = (Raise (ValueError FailedToParseBckAT), init_attributes, [ReadFlash 1000 0 1000])
  /\ calls is_trigger [ReadFlash 1000 0 1000] = 0%nat.
Proof.
  split.
  - intros s lib.
    exists (calibrated raised_frame (replicate 3653 1%float) (replicate 3653 1%float) 10 1),
      3%float, 1%float, 1%float, 1%float.
    split; [vm_compute; reflexivity|].
    split; [vm_compute; reflexivity|].
    split; [vm_compute; reflexivity|].
    split; [reflexivity|]. split; [reflexivity|]. split; [reflexivity|].
    vm_compute. discriminate.
  - split; [vm_compute; reflexivity | reflexivity].
Qed.

(** ** Decoding and splitting the blob *)

Lemma between_not_xff (lo hi : Z) (b : byte) :
  between lo hi b = true -> hi < 255 -> b <> xff.
Proof.
  intros H Hhi ->. unfold between in H. change (ord xff) with 255 in H.
  apply andb_true_iff in H. destruct H as [_ H]. apply Z.leb_le in H. lia.
Qed.

Lemma ascii_not_xff (b : byte) : (ord b <? 128) = true -> b <> xff.
Proof. intros H ->. discriminate H. Qed.

Lemma fmap_cons_Some {A} (x : A) (o : option (list A)) (t : list A) :
  cons x <$> o = Some t -> exists t', o = Some t'.
Proof. destruct o as [t'|]; [eexists; reflexivity | discriminate]. Qed.

(** A byte string that decodes holds no 0xFF byte. *)
Lemma utf8_decode_no_xff (n : nat) :
  forall (bs : list byte) (t : list Z),
    (length bs <= n)%nat -> utf8_decode bs = Some t -> Forall (fun b => b <> xff) bs.
Proof.
  induction n as [|n IH]; intros bs t Hn E.
  - destruct bs; [constructor | cbn in Hn; lia].
  - destruct bs as [|b0 r0]; [constructor|].
    cbn [utf8_decode] in E. cbv zeta in E. cbn [length] in Hn.
    destruct (ord b0 <? 128) eqn:E0.
    { apply fmap_cons_Some in E. destruct E as [t' E].
      constructor; [apply ascii_not_xff; exact E0 | apply (IH r0 t'); [lia | exact E]]. }
    destruct (between 194 223 b0) eqn:E1.
    { destruct r0 as [|b1 r1]; [discriminate|].
      destruct (between 128 191 b1) eqn:C1; [|discriminate].
      apply fmap_cons_Some in E. destruct E as [t' E]. cbn [length] in Hn.
      constructor; [eapply between_not_xff; [exact E1 | lia]|].
      constructor; [eapply between_not_xff; [exact C1 | lia]|].
      apply (IH r1 t'); [lia | exact E]. }
    destruct (between 224 239 b0) eqn:E2.
    { destruct r0 as [|b1 [|b2 r2]]; try discriminate.
      match type of E with (if ?c then _ else _) = _ => destruct c eqn:C end; [|discriminate].
      apply andb_true_iff in C. destruct C as [C1 C2].
      apply fmap_cons_Some in E. destruct E as [t' E]. cbn [length] in Hn.
      constructor; [eapply between_not_xff; [exact E2 | lia]|].
      constructor; [eapply between_not_xff; [exact C1 | destruct (ord b0 =? 237); lia]|].
      constructor; [eapply between_not_xff; [exact C2 | lia]|].
      apply (IH r2 t'); [lia | exact E]. }
    destruct (between 240 244 b0) eqn:E3; [|discriminate].
    destruct r0 as [|b1 [|b2 [|b3 r3]]]; try discriminate.
    match type of E with (if ?c then _ else _) = _ => destruct c eqn:C end; [|discriminate].
    apply andb_true_iff in C. destruct C as [C C3].
    apply andb_true_iff in C. destruct C as [C1 C2].
    apply fmap_cons_Some in E. destruct E as [t' E]. cbn [length] in Hn.
    constructor; [eapply between_not_xff; [exact E3 | lia]|].
    constructor; [eapply between_not_xff; [exact C1 | destruct (ord b0 =? 244); lia]|].
    constructor; [eapply between_not_xff; [exact C2 | lia]|].
    constructor; [eapply between_not_xff; [exact C3 | lia]|].
    apply (IH r3 t'); [lia | exact E].
Qed.

(** A blob of decodable text followed by the marker has its first marker
    right after the text. *)
Lemma marker_after_text (blob rest : list byte) (t : list Z) :
  utf8_decode blob = Some t ->
  marker_at (blob ++ xff :: xff :: rest) (length blob)
  /\ only_split_before (blob ++ xff :: xff :: rest) (length blob).
Proof.
  intros E. split.
  - unfold marker_at. rewrite !lookup_app_r by lia.
    replace (length blob - length blob)%nat with 0%nat by lia.
    replace (S (length blob) - length blob)%nat with 1%nat by lia. split; reflexivity.
  - intros q Hq [Hm _]. exfalso.
    rewrite lookup_app_l in Hm by exact Hq.
    pose proof (utf8_decode_no_xff (length blob) blob t ltac:(lia) E) as H.
    rewrite Forall_forall in H. apply (H xff); [|reflexivity].
    eapply list_elem_of_lookup_2. exact Hm.
Qed.

(** Text and lines *)

Lemma splitlines_from_line (l : list Z) :
  forall (cur rest : list Z),
    forallb (fun c => negb (is_linebreak c)) l = true ->
    splitlines_from cur (l ++ 10 :: rest) = (rev cur ++ l) :: splitlines_from [] rest.
Proof.
  induction l as [|c l IH]; intros cur rest H.
  - cbn [app splitlines_from]. change (is_linebreak 10) with true. cbv iota.
    rewrite app_nil_r. change ((10 =? 13) && _) with false.
    destruct rest; reflexivity.
  - cbn [forallb] in H. apply andb_true_iff in H. destruct H as [Hc H].
    apply negb_true_iff in Hc. cbn [app splitlines_from]. rewrite Hc.
    rewrite IH by exact H. cbn [rev]. rewrite <- app_assoc. reflexivity.
Qed.

Lemma splitlines_terminated (lines : list (list Z)) :
  unbroken lines = true -> splitlines (terminated lines) = lines.
Proof.
  unfold splitlines, terminated, unbroken. induction lines as [|l lines IH]; intros H.
  - reflexivity.
  - cbn [forallb] in H. apply andb_true_iff in H. destruct H as [Hl H].
    cbn [map concat]. rewrite <- app_assoc. cbn [app].
    rewrite splitlines_from_line by exact Hl. rewrite IH by exact H. reflexivity.
Qed.

Lemma slice_middle {A} (lo hi : Z) (pre mid post : list A) :
  length pre = Z.to_nat lo -> length mid = Z.to_nat (hi - lo) ->
  slice lo hi (pre ++ mid ++ post) = mid.
Proof.
  intros Hpre Hmid. unfold slice.
  rewrite drop_app_length' by (symmetry; exact Hpre).
  apply take_app_length'. symmetry; exact Hmid.
Qed.

(** Parsing calibration lines gives the values of the lines. *)
Lemma parse_calibration_lines (py_float np_float : list Z -> option float)
    (line0 line1 gap1 gap2 : list Z) (header wl nl pl : list (list Z))
    (b : float) (w n p : list float) (s : ASQESpectrometer) :
  length header = 10%nat ->
  length wl = 3653%nat -> length nl = 3653%nat -> length pl = 3653%nat ->
  py_float line1 = Some b ->
  mapM np_float wl = Some w ->
  mapM np_float nl = Some n ->
  mapM np_float pl = Some p ->
  parse_lines py_float np_float
    (calibration_lines line0 line1 header wl gap1 nl gap2 pl) s
  = (Ret tt, with_calibration b w n p s).
Proof.
  intros Hh Hw Hn Hp Hb Fw Fn Fp.
  unfold parse_lines.
  assert (calibration_lines line0 line1 header wl gap1 nl gap2 pl !! 1%nat = Some line1) as ->
    by reflexivity.
  cbn [mbind option_bind]. rewrite Hb.
  assert (slice 12 3665 (calibration_lines line0 line1 header wl gap1 nl gap2 pl) = wl) as ->.
  { unfold calibration_lines. rewrite (app_assoc [line0; line1] header).
    apply slice_middle.
    - rewrite length_app, Hh. reflexivity.
    - rewrite Hw. reflexivity. }
  rewrite Fw.
  assert (slice 3666 7319 (calibration_lines line0 line1 header wl gap1 nl gap2 pl) = nl)
    as ->.
  { unfold calibration_lines.
    replace ([line0; line1] ++ header ++ wl ++ [gap1] ++ nl ++ [gap2] ++ pl)
      with ((([line0; line1] ++ header) ++ wl ++ [gap1]) ++ nl ++ [gap2] ++ pl)
      by (rewrite <- !app_assoc; reflexivity).
    apply slice_middle.
    - rewrite !length_app, Hh, Hw. reflexivity.
    - rewrite Hn. reflexivity. }
  rewrite Fn.
  assert (slice 7320 10973 (calibration_lines line0 line1 header wl gap1 nl gap2 pl) = pl)
    as ->.
  { unfold calibration_lines.
    replace ([line0; line1] ++ header ++ wl ++ [gap1] ++ nl ++ [gap2] ++ pl)
      with (((([line0; line1] ++ header) ++ wl ++ [gap1]) ++ nl ++ [gap2]) ++ pl ++ [])
      by (rewrite <- !app_assoc, app_nil_r; reflexivity).
    apply slice_middle.
    - rewrite !length_app, Hh, Hw, Hn. reflexivity.
    - rewrite Hp. reflexivity. }
  rewrite Fp. reflexivity.
Qed.

(** claim C4 (as amended): a blob holding the text of calibration lines
    (a first line, the [bck_aT] line, ten header lines, 3653 wavelength
    lines, a line, 3653 normalization lines, a line, 3653 power lines),
    followed in flash by the marker 0xFF 0xFF, is loaded as exactly the
    values of its lines, each array with 3653 entries in order, provided the
    marker does not start on the last byte of a 1000-byte chunk and starts
    within the 101 chunks that are read. *)
Theorem load_calibration_round_trip (lib : driver)
    (py_float np_float : list Z -> option float)
    (line0 line1 gap1 gap2 : list Z) (header wl nl pl : list (list Z)) (b : float)
    (w n p : list float) (blob rest : list byte) (s : ASQESpectrometer) (h : history) :
  _calibration_data_loaded s = false ->
  length header = 10%nat ->
  length wl = 3653%nat -> length nl = 3653%nat -> length pl = 3653%nat ->
  py_float line1 = Some b ->
  mapM np_float wl = Some w ->
  mapM np_float nl = Some n ->
  mapM np_float pl = Some p ->
  unbroken (calibration_lines line0 line1 header wl gap1 nl gap2 pl) = true ->
  utf8_decode blob
  = Some (terminated (calibration_lines line0 line1 header wl gap1 nl gap2 pl)) ->
  serves lib (blob ++ xff :: xff :: rest) ->
  (length blob mod 1000 <> 999)%nat ->
  (length blob / 1000 <= 100)%nat ->
  load_calibration_data lib py_float np_float s h
  = (Ret tt, with_calibration b w n p s,
     h ++ flash_reads (S (length blob / 1000)))
  /\ bck_aT (with_calibration b w n p s) = Some b
  /\ wavelength (with_calibration b w n p s) = Some w
  /\ norm_coef (with_calibration b w n p s) = Some n
  /\ power_coef (with_calibration b w n p s) = Some p
  /\ length w = 3653%nat /\ length n = 3653%nat /\ length p = 3653%nat.
Proof.
  intros Hl Hh Hw Hn Hp Hb Fw Fn Fp Hu Hd Hserves Hmod Hdiv.
  split.
  - destruct (marker_after_text blob rest _ Hd) as [Hm Hfirst].
    rewrite load_run by exact Hl.
    rewrite (read_to_marker lib _ Hserves s h (length blob) Hm Hfirst Hmod Hdiv).
    rewrite take_app_length, Hd, splitlines_terminated by exact Hu.
    rewrite (parse_calibration_lines _ _ _ _ _ _ _ _ _ _ b w n p) by assumption.
    reflexivity.
  - apply length_mapM in Fw, Fn, Fp.
    split; [reflexivity|]. split; [reflexivity|]. split; [reflexivity|].
    split; [reflexivity|]. split; [congruence|]. split; congruence.
Qed.

(** claim C2 (a defect of the code): the number of lines is not checked.
    Only line 1 is guarded: with fewer than 2 lines the load fails with the
    [bck_aT] [ValueError] before any array is read and nothing is stored.
    For a longer text the three slices are clamped without an error: when
    line 1 and the lines present in the three ranges are numeric the load
    succeeds, sets the flag and caches arrays that have as many entries as
    their range has lines, fewer than 3653 for [power_coef] whenever the text
    has fewer than 10973 lines. *)
Theorem load_short_blob (lib : driver) (py_float np_float : list Z -> option float)
    (s : ASQESpectrometer) (h h' : history) (calib : list byte) (text : list Z) :
  _calibration_data_loaded s = false ->
  read_calibration_file lib s h = (Ret calib, s, h') ->
  utf8_decode calib = Some text ->
  ((length (splitlines text) < 2)%nat ->
   load_calibration_data lib py_float np_float s h
   = (Raise (ValueError FailedToParseBckAT), s, h'))
  /\ (forall v w n p,
         splitlines text !! 1%nat ≫= py_float = Some v ->
         mapM np_float (slice 12 3665 (splitlines text)) = Some w ->
         mapM np_float (slice 3666 7319 (splitlines text)) = Some n ->
         mapM np_float (slice 7320 10973 (splitlines text)) = Some p ->
         load_calibration_data lib py_float np_float s h
         = (Ret tt, with_calibration v w n p s, h')
         /\ Z.of_nat (length w)
            = Z.min 3653 (Z.max 0 (Z.of_nat (length (splitlines text)) - 12))
         /\ Z.of_nat (length n)
            = Z.min 3653 (Z.max 0 (Z.of_nat (length (splitlines text)) - 3666))
         /\ Z.of_nat (length p)
            = Z.min 3653 (Z.max 0 (Z.of_nat (length (splitlines text)) - 7320))
         /\ (Z.of_nat (length (splitlines text)) < 10973 -> Z.of_nat (length p) < 3653)).
Proof.
  intros Hl Hr Hd. rewrite load_run, Hr, Hd by exact Hl. split.
  - intros Hlen. unfold parse_lines.
    rewrite (lookup_ge_None_2 (splitlines text) 1) by lia. reflexivity.
  - intros v w n p Hv Ew En Ep. unfold parse_lines. rewrite Hv, Ew, En, Ep.
    apply length_mapM in Ew, En, Ep. rewrite length_slice in Ew, En, Ep.
    split; [reflexivity|]. repeat split; lia.
Qed.

(** ** Runs on concrete devices *)

Lemma bench_serves (mem : list byte) (ready : nat) (samples : list Z) (status : Z) :
  serves (bench mem ready samples status) mem.
Proof. intros h offset size _ _. reflexivity. Qed.

(** The position [find] returns is the first marker of the flash. *)
Lemma first_marker_by_find (mem : list byte) (p : nat) :
  find mem marker = Z.of_nat p -> marker_at mem p /\ only_split_before mem p.
Proof.
  intros H. apply find_marker_some in H. destruct H as [H1 H2].
  split; [exact H1|]. intros q Hq Hm. destruct (H2 q Hq Hm).
Qed.

Lemma no_marker_in_zeros (j : nat) : find (chunk (flash_chunk []) j) marker = -1.
Proof.
  unfold chunk, flash_chunk. rewrite drop_nil, take_nil. vm_compute. reflexivity.
Qed.

(** The reader on an erased flash (all chunks zero), and on a flash with
    the marker at offset 1500. *)
Lemma read_calibration_file_chunks_witness :
  read_calibration_file (bench [] 0 [] 0) init_attributes []
  = (Ret (concat (map (chunk (flash_chunk [])) (seq 0 101))), init_attributes,
     [] ++ flash_reads 101)
  /\ exists i : nat,
       marker_at (chunk (flash_chunk flash_inside) 1) i
       /\ (forall j, (j < i)%nat -> ~ marker_at (chunk (flash_chunk flash_inside) 1) j)
       /\ read_calibration_file (bench flash_inside 0 [] 0) init_attributes []
          = (Ret (concat (map (chunk (flash_chunk flash_inside)) (seq 0 1))
                    ++ take i (chunk (flash_chunk flash_inside) 1)),
             init_attributes, [] ++ flash_reads 2).
Proof.
  split.
  - apply (proj1 (proj2 (read_calibration_file_chunks (bench [] 0 [] 0) init_attributes []
                           (flash_chunk [])))).
    intros j _. split; [apply serves_served, bench_serves | apply no_marker_in_zeros].
  - apply (proj1 (read_calibration_file_chunks (bench flash_inside 0 [] 0) init_attributes []
                    (flash_chunk flash_inside)) 1%nat).
    + lia.
    + intros j _. apply serves_served, bench_serves.
    + intros j Hj. assert (j = 0%nat) as -> by lia. vm_compute. reflexivity.
    + vm_compute. discriminate.
Defined.

Lemma marker_detection_witness :
  read_calibration_file (bench flash_inside 0 [] 0) init_attributes []
  = (Ret (take 1500 flash_inside), init_attributes, [] ++ flash_reads (S (1500 / 1000)))
  /\ read_calibration_file (bench flash_at_start 0 [] 0) init_attributes []
     = (Ret (take 2000 flash_at_start), init_attributes, [] ++ flash_reads (S (2000 / 1000)))
  /\ exists (rest : list byte) (h' : history),
       read_calibration_file (bench flash_across 0 [] 0) init_attributes []
       = (Ret (take (S 999) flash_across ++ rest), init_attributes,
          [] ++ flash_reads (S (S (999 / 1000))) ++ h').
Proof.
  split; [|split].
  - destruct (first_marker_by_find flash_inside 1500) as [Hm Hf]; [vm_compute; reflexivity|].
    apply (proj1 (marker_detection (bench flash_inside 0 [] 0) flash_inside init_attributes []
                    1500 (bench_serves _ _ _ _) Hm Hf)).
    + vm_compute. discriminate.
    + apply Nat.leb_le. vm_compute. reflexivity.
  - destruct (first_marker_by_find flash_at_start 2000) as [Hm Hf]; [vm_compute; reflexivity|].
    apply (proj1 (marker_detection (bench flash_at_start 0 [] 0) flash_at_start init_attributes
                    [] 2000 (bench_serves _ _ _ _) Hm Hf)).
    + vm_compute. discriminate.
    + apply Nat.leb_le. vm_compute. reflexivity.
  - destruct (first_marker_by_find flash_across 999) as [Hm Hf]; [vm_compute; reflexivity|].
    apply (proj1 (proj2 (marker_detection (bench flash_across 0 [] 0) flash_across
                           init_attributes [] 999 (bench_serves _ _ _ _) Hm Hf))).
    + vm_compute. reflexivity.
    + apply Nat.ltb_lt. vm_compute. reflexivity.
Defined.

(** A device that reports its frame at the third poll. *)
Lemma capture_frame_polling_witness :
  capture_frame (bench [] 2 uniform_frame 0) 3 init_attributes []
  = (Ret (frame_buffer (bench [] 2 uniform_frame 0)
            (([] ++ [TriggerAcquisition]) ++ polls_log 3)),
     init_attributes, ([] ++ [TriggerAcquisition]) ++ polls_log 3 ++ [GetFrame 3694 65535])
  /\ capture_frame (bench [] 2 uniform_frame 0) 2 init_attributes []
     = (Diverge, init_attributes, ([] ++ [TriggerAcquisition]) ++ polls_log 2).
Proof.
  pose proof (capture_frame_polling (bench [] 2 uniform_frame 0) init_attributes []) as H.
  cbv zeta in H. destruct H as (H1 & H2 & _). split.
  - apply (H1 2%nat 3%nat).
    + intros k Hk. assert (k = 0%nat \/ k = 1%nat) as [-> | ->] by lia; reflexivity.
    + vm_compute. discriminate.
    + lia.
  - apply (H2 2%nat).
    intros k Hk. assert (k = 0%nat \/ k = 1%nat) as [-> | ->] by lia; reflexivity.
Defined.

Lemma capture_frame_max_len_witness :
  exists h : history,
    [TriggerAcquisition; Sleep 25; GetStatus; GetFrame 3694 65535] = h ++ [GetFrame 3694 65535]
    /\ uniform_frame
       = fill 0 3694 (map c_uint16 (getFrame (bench [] 0 uniform_frame 0) h 65535).2)
    /\ length uniform_frame = 3694%nat
    /\ Z.of_nat (length uniform_frame) < 65535.
Proof.
  apply (capture_frame_max_len (bench [] 0 uniform_frame 0) 1 init_attributes init_attributes []).
  vm_compute. reflexivity.
Defined.

Lemma subtract_background_window_witness :
  exists r : list float,
    subtract_background (bench [] 0 uniform_frame 0) 1 init_attributes []
    = (Ret r, init_attributes,
       [TriggerAcquisition; Sleep 25; GetStatus; GetFrame 3694 65535])
    /\ length r = 3653%nat.
Proof.
  apply (proj1 (proj2 (subtract_background_window (bench [] 0 uniform_frame 0)
                         init_attributes [])) 0%nat 1%nat).
  - intros k Hk. lia.
  - vm_compute. discriminate.
  - lia.
Defined.

(** The numeric scenario run on a device. *)
Lemma get_calibrated_spectrum_formula_witness :
  get_calibrated_spectrum (bench [] 0 uniform_frame 0) digits_float digits_float 1
    (flat_object 500 1 2 4) []
  = (Ret (Some (replicate 3653 1%float), replicate 3653 0%float), flat_object 500 1 2 4,
     [TriggerAcquisition; Sleep 25; GetStatus; GetFrame 3694 65535]).
Proof.
  apply (proj2 (proj2 (proj2 get_calibrated_spectrum_formula))). vm_compute. reflexivity.
Defined.

(** Once loaded, a spectrum is computed without a flash read, even from a
    device whose flash is now empty. *)
Lemma calibration_memoized_witness :
  exists o hnew,
    get_calibrated_spectrum (bench [] 0 uniform_frame 0) digits_float digits_float 1
      (flat_object 500 1 2 4) []
    = (o, flat_object 500 1 2 4, [] ++ hnew)
    /\ calls is_flash_read hnew = 0%nat.
Proof.
  destruct (proj1 (proj2 (proj2 (proj2
              (calibration_memoized (bench [] 0 uniform_frame 0) digits_float digits_float))))
              1%nat (flat_object 500 1 2 4) [] eq_refl) as (o & hnew & E & H & _).
  exists o, hnew. split; [exact E | exact H].
Defined.

(** The two-line and the one-line flash. *)
Lemma load_short_blob_witness :
  load_calibration_data (bench flash_one_line 0 [] 0) digits_float digits_float
    init_attributes []
  = (Raise (ValueError FailedToParseBckAT), init_attributes, [ReadFlash 1000 0 1000])
  /\ load_calibration_data (bench flash_two_lines 0 [] 0) digits_float digits_float
       init_attributes []
     = (Ret tt, with_calibration 1 [] [] [] init_attributes, [ReadFlash 1000 0 1000]).
Proof.
  split.
  - apply (proj1 (load_short_blob (bench flash_one_line 0 [] 0) digits_float digits_float
                    init_attributes [] [ReadFlash 1000 0 1000] [x37; x0a] [55; 10]
                    eq_refl ltac:(vm_compute; reflexivity) eq_refl)).
    vm_compute. lia.
  - apply (proj2 (load_short_blob (bench flash_two_lines 0 [] 0) digits_float digits_float
                    init_attributes [] [ReadFlash 1000 0 1000] [x37; x0a; x31; x0a]
                    [55; 10; 49; 10]
                    eq_refl ltac:(vm_compute; reflexivity) eq_refl)
             1%float [] [] []); reflexivity.
Defined.

(** The failing input of claim C2: a blob of two lines, far fewer than
    10973, is loaded without error and cached with empty coefficient arrays;
    the fault shows only later, as a broadcasting error of
    [normalize_spectrum], after a frame has been acquired. *)
Lemma load_two_lines_succeeds :
  length (splitlines [55; 10; 49; 10]) = 2%nat
  /\ utf8_decode [x37; x0a; x31; x0a] = Some [55; 10; 49; 10]
  /\ read_calibration_file (bench flash_two_lines 0 [] 0) init_attributes []
     = (Ret [x37; x0a; x31; x0a], init_attributes, [ReadFlash 1000 0 1000])
  /\ load_calibration_data (bench flash_two_lines 0 [] 0) digits_float digits_float
       init_attributes []
     = (Ret tt, with_calibration 1 [] [] [] init_attributes, [ReadFlash 1000 0 1000])
  /\ wavelength (with_calibration 1 [] [] [] init_attributes) = Some []
  /\ norm_coef (with_calibration 1 [] [] [] init_attributes) = Some []
  /\ power_coef (with_calibration 1 [] [] [] init_attributes) = Some []
  /\ normalize_spectrum (bench flash_two_lines 0 uniform_frame 0) digits_float
       digits_float 1 init_attributes []
     = (Raise (ValueError CouldNotBroadcast), with_calibration 1 [] [] [] init_attributes,
        [ReadFlash 1000 0 1000; TriggerAcquisition; Sleep 25; GetStatus;
         GetFrame 3694 65535]).
Proof.
  split; [reflexivity|]. split; [reflexivity|].
  split; [vm_compute; reflexivity|]. split; [vm_compute; reflexivity|].
  split; [reflexivity|]. split; [reflexivity|]. split; [reflexivity|].
  vm_compute. reflexivity.
Qed.

Lemma ord_encode (c : Z) :
  0 <= c < 128 -> ord (default x00 (Byte.of_N (Z.to_N c))) = c.
Proof.
  intros Hc. destruct (Byte.of_N (Z.to_N c)) as [b|] eqn:E.
  - apply Byte.to_of_N in E. cbn [from_option id]. unfold ord. rewrite E. lia.
  - apply Byte.of_N_None_iff in E. lia.
Qed.

(** ASCII text encodes to bytes that decode to it. *)
Lemma utf8_decode_ascii (text : list Z) :
  forallb (fun c => (0 <=? c) && (c <? 128)) text = true ->
  utf8_decode (encode_ascii text) = Some text.
Proof.
  induction text as [|c text IH]; intros H; [reflexivity|].
  cbn [forallb] in H. apply andb_true_iff in H. destruct H as [Hc H].
  apply andb_true_iff in Hc. destruct Hc as [H0 H1].
  pose proof H0 as H0'. pose proof H1 as H1'. apply Z.leb_le in H0'. apply Z.ltb_lt in H1'.
  cbn [encode_ascii map utf8_decode]. cbv zeta.
  rewrite ord_encode by lia. rewrite H1.
  fold (encode_ascii text). rewrite IH by exact H. reflexivity.
Qed.

(** The sample calibration file, with the marker at offset 32256. *)
Lemma load_calibration_round_trip_witness :
  load_calibration_data (bench (sample_flash 4) 0 [] 0) digits_float digits_float
    init_attributes []
  = (Ret tt,
     with_calibration 1 sample_wavelength sample_norm_coef sample_power_coef init_attributes,
     [] ++ flash_reads (S (length (sample_blob 4) / 1000)))
  /\ length sample_wavelength = 3653%nat.
Proof.
  split; [|vm_compute; reflexivity].
  apply (load_calibration_round_trip (bench (sample_flash 4) 0 [] 0)
           digits_float digits_float (replicate 4 65) (digits 1) [] [] (replicate 10 [35])
           (map digits (count_from 3653 350))
           (replicate 3653 (digits 2)) (replicate 3653 (digits 4))
           1%float sample_wavelength sample_norm_coef sample_power_coef
           (sample_blob 4) (replicate 8 x00) init_attributes []).
  - reflexivity.
  - reflexivity.
  - vm_compute; reflexivity.
  - reflexivity.
  - reflexivity.
  - vm_compute; reflexivity.
  - vm_compute; reflexivity.
  - vm_compute; reflexivity.
  - vm_compute; reflexivity.
  - vm_compute; reflexivity.
  - apply utf8_decode_ascii. vm_compute; reflexivity.
  - apply bench_serves.
  - apply Nat.eqb_neq. vm_compute. reflexivity.
  - apply Nat.leb_le. vm_compute. reflexivity.
Defined.

(** Counterexample to claim C4 as written: the same file with a first line
    of 747 letters is 32999 bytes long, so the marker that follows it starts
    on the last byte of a chunk; it is not found, the bytes after it are
    accumulated too, and decoding fails. *)
Lemma load_round_trip_fails_across_chunks :
  Z.of_nat (length (sample_blob 747)) = 32999
  /\ utf8_decode (sample_blob 747) = Some (terminated (sample_lines 747))
  /\ unbroken (sample_lines 747) = true
  /\ parse_lines digits_float digits_float (sample_lines 747) init_attributes
     = (Ret tt,
        with_calibration 1 sample_wavelength sample_norm_coef sample_power_coef init_attributes)
  /\ result (load_calibration_data (bench (sample_flash 747) 0 [] 0)
               digits_float digits_float init_attributes [])
     = Raise UnicodeDecodeError.
Proof.
  split; [vm_compute; reflexivity|].
  split; [apply utf8_decode_ascii; vm_compute; reflexivity|].
  split; [vm_compute; reflexivity|].
  split; vm_compute; reflexivity.
Qed.

(** * Further properties *)

(** ** Flash reads *)

(** extra X1: for a size from 0 to the 1000 bytes the program asks for,
    [read_flash] returns exactly [size] bytes whatever the library stored:
    the bytes stored, then zeros; with a nonzero status it raises
    [RuntimeError] carrying the status.  Either way one [readFlash] call is
    logged and the object is left as it is. *)
Theorem read_flash_size (lib : driver) (offset size : Z) (s : ASQESpectrometer)
    (h : history) :
  0 <= size <= 1000 ->
  let answer := readFlash lib h (c_uint32 offset) (c_uint32 size) in
  let h' := h ++ [ReadFlash (Z.to_nat size) (c_uint32 offset) (c_uint32 size)] in
  (answer.1 = 0 ->
   exists data,
     read_flash lib offset size s h = (Ret data, s, h')
     /\ Z.of_nat (length data) = size
     /\ (forall k b, Z.of_nat k < size -> answer.2 !! k = Some b -> data !! k = Some b)
     /\ (forall k, (length answer.2 <= k)%nat -> Z.of_nat k < size -> data !! k = Some x00))
  /\ (answer.1 <> 0 ->
      read_flash lib offset size s h = (Raise (RuntimeError answer.1), s, h')).
Proof.
  intros Hsize answer h'. subst h'. split.
  - intros E. exists (fill x00 (Z.to_nat size) answer.2).
    rewrite read_flash_run. cbv zeta. fold answer. rewrite E. cbn [Z.eqb].
    split; [reflexivity|]. split; [rewrite length_fill; lia|]. split.
    + intros k b Hk Hb. rewrite lookup_fill by lia. rewrite Hb. reflexivity.
    + intros k Hk1 Hk2. rewrite lookup_fill by lia.
      rewrite (lookup_ge_None_2 _ _ Hk1). reflexivity.
  - intros E. rewrite read_flash_run. cbv zeta. fold answer.
    apply Z.eqb_neq in E. rewrite E. reflexivity.
Qed.

(** One iteration of the reading loop, whatever the read answers. *)
Lemma loop_one (lib : driver) (fuel k : nat) (acc : list byte) (s : ASQESpectrometer)
    (h : history) :
  (k <= 100)%nat ->
  read_calibration_loop lib (S fuel) (1000 * Z.of_nat k) false acc s h =
    let answer := readFlash lib h (1000 * Z.of_nat k) 1000 in
    let data := fill x00 1000 answer.2 in
    let h' := h ++ [ReadFlash 1000 (1000 * Z.of_nat k) 1000] in
    if (answer.1 =? 0) then
      if find data marker =? -1
      then read_calibration_loop lib fuel (1000 * Z.of_nat (S k)) false (acc ++ data) s h'
      else (Ret (acc ++ take (Z.to_nat (find data marker)) data), s, h')
    else (Raise (RuntimeError answer.1), s, h').
Proof.
  intros Hk. cbv zeta.
  destruct (readFlash lib h (1000 * Z.of_nat k) 1000) as [st w] eqn:E. cbn [fst snd].
  destruct (Z.eq_dec st 0) as [->|Hst].
  - rewrite (loop_step lib fuel k acc w s h Hk E). cbv zeta. cbn [Z.eqb].
    destruct (find (fill x00 1000 w) marker =? -1); [reflexivity | apply loop_found].
  - assert (c_uint32 (1000 * Z.of_nat k) = 1000 * Z.of_nat k) as Eo
      by (unfold c_uint32; apply Z.mod_small; lia).
    assert ((1000 * Z.of_nat k <=? MAX_SIZE) = true) as Ec
      by (apply Z.leb_le; unfold MAX_SIZE; lia).
    cbn [read_calibration_loop]. rewrite Ec. cbn [andb negb].
    unfold bind at 1. rewrite read_flash_run. unfold CHUNK_SIZE.
    rewrite Eo. change (c_uint32 1000) with 1000. rewrite E.
    change (Z.to_nat 1000) with 1000%nat. cbn [fst snd].
    apply Z.eqb_neq in Hst. rewrite Hst. reflexivity.
Qed.

Lemma loop_bounded (lib : driver) (s : ASQESpectrometer) (h0 : history) (m : nat) :
  forall (k fuel : nat) (acc : list byte),
    (k + m = 100)%nat -> (m < fuel)%nat ->
    exists (n : nat) (o : outcome (list byte)),
      (k <= n <= 100)%nat
      /\ read_calibration_loop lib fuel (1000 * Z.of_nat k) false acc s (h0 ++ flash_reads k)
         = (o, s, h0 ++ flash_reads (S n))
      /\ ((exists data, o = Ret data
                        /\ (length data <= length acc + 1000 * (S n - k))%nat)
          \/ (exists code, code <> 0 /\ o = Raise (RuntimeError code))).
Proof.
  induction m as [|m IH]; intros k fuel acc Hk Hfuel;
    (destruct fuel as [|fuel]; [lia|]);
    (assert (k <= 100)%nat as Hk' by lia);
    rewrite (loop_one lib fuel k acc s _ Hk'); cbv zeta;
    rewrite <- app_assoc, <- flash_reads_S;
    set (answer := readFlash lib (h0 ++ flash_reads k) (1000 * Z.of_nat k) 1000);
    set (data := fill x00 1000 answer.2);
    (assert (length data = 1000%nat) as Ld by apply length_fill);
    (destruct (answer.1 =? 0) eqn:Est;
     [|exists k; eexists; split; [lia|]; split; [reflexivity|]; right;
       exists answer.1; split; [apply Z.eqb_neq; exact Est | reflexivity]]);
    (destruct (find data marker =? -1);
     [|exists k; eexists; split; [lia|]; split; [reflexivity|]; left;
       eexists; split; [reflexivity|]; rewrite length_app, length_take; lia]).
  - assert (k = 100%nat) as -> by lia.
    rewrite loop_cap by (unfold MAX_SIZE; lia).
    exists 100%nat. eexists. split; [lia|]. split; [reflexivity|]. left.
    eexists. split; [reflexivity|]. rewrite length_app. lia.
  - destruct (IH (S k) fuel (acc ++ data)) as (n & o & Hn & E & Ho); [lia|lia|].
    exists n, o. split; [lia|]. split; [exact E|].
    destruct Ho as [(d & -> & Hd)|Hc]; [left | right; exact Hc].
    exists d. split; [reflexivity|]. rewrite length_app in Hd. lia.
Qed.

(** Whatever the library answers, the reading loop ends within 101 reads. *)
Lemma read_calibration_file_ends (lib : driver) (s : ASQESpectrometer) (h0 : history) :
  exists (n : nat) (o : outcome (list byte)),
    (n <= 100)%nat
    /\ read_calibration_file lib s h0 = (o, s, h0 ++ flash_reads (S n))
    /\ ((exists data, o = Ret data /\ (length data <= 1000 * S n)%nat)
        \/ (exists code, code <> 0 /\ o = Raise (RuntimeError code))).
Proof.
  destruct (loop_bounded lib s h0 100 0 101 []) as (n & o & Hn & E & Ho); [lia|lia|].
  exists n, o. split; [lia|]. split.
  - rewrite <- E. unfold read_calibration_file. rewrite app_nil_r. reflexivity.
  - destruct Ho as [(d & -> & Hd)|Hc]; [left | right; exact Hc].
    exists d. split; [reflexivity|]. cbn [length] in Hd. lia.
Qed.

(** extra X2: whatever the library answers, [read_calibration_file] ends
    after at most 101 reads, made at offsets 0, 1000, 2000, ... in order: it
    returns at most 1000 bytes per read made, or raises the [RuntimeError] of
    a failed read; the object is left as it is. *)
Theorem read_calibration_file_bounded (lib : driver) (s : ASQESpectrometer)
    (h0 : history) :
  exists (n : nat) (o : outcome (list byte)),
    (n <= 100)%nat
    /\ read_calibration_file lib s h0 = (o, s, h0 ++ flash_reads (S n))
    /\ ((exists data, o = Ret data /\ (length data <= 1000 * S n)%nat)
        \/ (exists code, code <> 0 /\ o = Raise (RuntimeError code))).
Proof. apply read_calibration_file_ends. Qed.

(** extra X3: when the read of some chunk fails after chunks that hold no
    marker, [read_calibration_file] raises [RuntimeError] with the status of
    that read, makes no further read and hands back nothing of what it had
    accumulated. *)
Theorem read_calibration_file_failed_read (lib : driver) (s : ASQESpectrometer)
    (h0 : history) (c : nat -> list byte) (n : nat) :
  (n <= 100)%nat ->
  (forall j, (j < n)%nat -> served lib h0 c j /\ find (chunk c j) marker = -1) ->
  (readFlash lib (h0 ++ flash_reads n) (1000 * Z.of_nat n) 1000).1 <> 0 ->
  read_calibration_file lib s h0
  = (Raise (RuntimeError (readFlash lib (h0 ++ flash_reads n) (1000 * Z.of_nat n) 1000).1),
     s, h0 ++ flash_reads (S n)).
Proof.
  intros Hn Hc Hst. unfold read_calibration_file.
  change (Z.to_nat (MAX_SIZE / CHUNK_SIZE) + 1)%nat with 101%nat.
  replace 101%nat with (n + S (100 - n))%nat by lia.
  pose proof (loop_skip lib h0 c s n 0 (S (100 - n)) []) as E.
  change (flash_reads 0) with (@nil event) in E. rewrite app_nil_r in E.
  change (1000 * Z.of_nat 0) with 0 in E.
  rewrite E; [|lia|intros; apply Hc; lia]. change (0 + n)%nat with n.
  rewrite (loop_one lib (100 - n) n _ s _ Hn). cbv zeta.
  apply Z.eqb_neq in Hst. rewrite Hst, <- app_assoc, <- flash_reads_S. reflexivity.
Qed.

(** ** The pipeline methods in two steps *)

Section TwoSteps.

Variable lib : driver.
Variable py_float np_float : list Z -> option float.

Lemma normalize_loaded (fuel : nat) (s : ASQESpectrometer) (h : history) :
  _calibration_data_loaded s = true ->
  normalize_spectrum lib py_float np_float fuel s h
  = match capture_frame lib fuel s h with
    | (Ret data, s', h') => (normalized s' data, s', h')
    | (Raise e, s', h') => (Raise e, s', h')
    | (Diverge, s', h') => (Diverge, s', h')
    end.
Proof.
  intros H. unfold normalize_spectrum, subtract_background.
  unfold bind, getattr, ret. rewrite H. cbn [negb].
  destruct (capture_frame lib fuel s h) as [[[data|e|] s'] h']; try reflexivity.
  unfold normalized, inplace, raise, ret.
  destruct (norm_coef s') as [c|]; [|reflexivity].
  destruct (np_inplace PrimFloat.div (subtract_background_of data) c); reflexivity.
Qed.

Lemma normalize_unloaded (fuel : nat) (s : ASQESpectrometer) (h : history) :
  _calibration_data_loaded s = false ->
  normalize_spectrum lib py_float np_float fuel s h
  = match load_calibration_data lib py_float np_float s h with
    | (Ret _, s1, h1) => normalize_spectrum lib py_float np_float fuel s1 h1
    | (Raise e, s1, h1) => (Raise e, s1, h1)
    | (Diverge, s1, h1) => (Diverge, s1, h1)
    end.
Proof.
  intros H. unfold normalize_spectrum.
  unfold bind, getattr, ret. rewrite H. cbn [negb].
  destruct (load_calibration_data lib py_float np_float s h) as [[[u|e|] s1] h1] eqn:E;
    try reflexivity.
  rewrite (load_ret_loaded _ _ _ _ _ _ _ _ E). reflexivity.
Qed.

Lemma normalize_two_steps (fuel : nat) (s : ASQESpectrometer) (h : history) :
  normalize_spectrum lib py_float np_float fuel s h
  = load_then_capture lib py_float np_float fuel normalized s h.
Proof.
  unfold load_then_capture. destruct (_calibration_data_loaded s) eqn:Hl.
  - rewrite load_cached by exact Hl. apply normalize_loaded. exact Hl.
  - rewrite normalize_unloaded by exact Hl.
    destruct (load_calibration_data lib py_float np_float s h) as [[[u|e|] s1] h1] eqn:E;
      try reflexivity.
    apply normalize_loaded. eapply load_ret_loaded. exact E.
Qed.

Lemma get_calibrated_two_steps (fuel : nat) (s : ASQESpectrometer) (h : history) :
  get_calibrated_spectrum lib py_float np_float fuel s h
  = load_then_capture lib py_float np_float fuel stages s h.
Proof.
  unfold load_then_capture. destruct (_calibration_data_loaded s) eqn:Hl.
  - rewrite load_cached by exact Hl. apply get_calibrated_loaded. exact Hl.
  - rewrite get_calibrated_unloaded by exact Hl.
    destruct (load_calibration_data lib py_float np_float s h) as [[[u|e|] s1] h1] eqn:E;
      try reflexivity.
    apply get_calibrated_loaded. eapply load_ret_loaded. exact E.
Qed.

(** A capture leaves the object alone. *)
Lemma capture_frame_self (fuel : nat) (s : ASQESpectrometer) (h : history) :
  self_after (capture_frame lib fuel s h) = s.
Proof.
  destruct (capture_frame_cases lib fuel s h) as [(n & _ & _ & _ & E)|[_ E]];
    rewrite E; reflexivity.
Qed.

(** After the load, nothing is stored. *)
Lemma load_then_capture_self {A} (fuel : nat)
    (stage : ASQESpectrometer -> list Z -> outcome A) (s : ASQESpectrometer)
    (h : history) :
  self_after (load_then_capture lib py_float np_float fuel stage s h)
  = self_after (load_calibration_data lib py_float np_float s h).
Proof.
  unfold load_then_capture.
  destruct (load_calibration_data lib py_float np_float s h) as [[[u|e|] s1] h1];
    try reflexivity.
  pose proof (capture_frame_self fuel s1 h1) as E.
  destruct (capture_frame lib fuel s1 h1) as [[[data|e|] s'] h']; exact E.
Qed.

End TwoSteps.

(** ** Loading: what is stored and when *)

Lemma same_parameters_refl (s : ASQESpectrometer) : same_parameters s s.
Proof. repeat split. Qed.

Lemma parse_lines_cases (py_float np_float : list Z -> option float)
    (lines : list (list Z)) (s : ASQESpectrometer) :
  let r := parse_lines py_float np_float lines s in
  same_parameters s r.2
  /\ r.1 <> Diverge
  /\ (forall u, r.1 = Ret u -> cache_ok r.2)
  /\ r.1 <> Raise TypeError
  /\ (forall e, r.1 = Raise e ->
        _calibration_data_loaded r.2 = _calibration_data_loaded s
        /\ (e <> ValueError CouldNotConvertStringToFloat -> r.2 = s)
        /\ (e = ValueError CouldNotConvertStringToFloat -> is_Some (bck_aT r.2))).
Proof.
  unfold parse_lines. cbv zeta.
  destruct (lines !! 1%nat ≫= py_float) as [v|].
  2: { cbn [fst snd]. split; [apply same_parameters_refl|]. split; [discriminate|].
       split; [discriminate|]. split; [discriminate|].
       intros e [= <-]. split; [reflexivity|]. split; [reflexivity | discriminate]. }
  destruct (mapM np_float (slice 12 3665 lines)) as [w|].
  2: { cbn [fst snd]. split; [repeat split|]. split; [discriminate|].
       split; [discriminate|]. split; [discriminate|].
       intros e [= <-]. split; [reflexivity|]. split; [congruence | eexists; reflexivity]. }
  destruct (mapM np_float (slice 3666 7319 lines)) as [n|].
  2: { cbn [fst snd]. split; [repeat split|]. split; [discriminate|].
       split; [discriminate|]. split; [discriminate|].
       intros e [= <-]. split; [reflexivity|]. split; [congruence | eexists; reflexivity]. }
  destruct (mapM np_float (slice 7320 10973 lines)) as [p|].
  2: { cbn [fst snd]. split; [repeat split|]. split; [discriminate|].
       split; [discriminate|]. split; [discriminate|].
       intros e [= <-]. split; [reflexivity|]. split; [congruence | eexists; reflexivity]. }
  cbn [fst snd]. split; [repeat split|]. split; [discriminate|].
  split; [|split; [discriminate | intros e; discriminate]].
  intros u _ _. repeat split; eexists; reflexivity.
Qed.

Section Loading.

Variable lib : driver.
Variable py_float np_float : list Z -> option float.

Lemma load_effect (s : ASQESpectrometer) (h : history) :
  let r := load_calibration_data lib py_float np_float s h in
  same_parameters s (self_after r)
  /\ result r <> Diverge
  /\ result r <> Raise TypeError
  /\ (cache_ok s -> cache_ok (self_after r))
  /\ (forall e, result r = Raise e ->
        _calibration_data_loaded s = false
        /\ _calibration_data_loaded (self_after r) = false
        /\ (e <> ValueError CouldNotConvertStringToFloat -> self_after r = s)
        /\ (e = ValueError CouldNotConvertStringToFloat -> is_Some (bck_aT (self_after r)))).
Proof.
  cbv zeta. destruct (_calibration_data_loaded s) eqn:Hl.
  - rewrite load_cached by exact Hl. unfold result, self_after. cbn [fst snd].
    split; [apply same_parameters_refl|]. split; [discriminate|]. split; [discriminate|].
    split; [auto|]. intros e; discriminate.
  - rewrite load_run by exact Hl.
    destruct (read_calibration_file_ends lib s h) as (n & o & _ & -> & Ho).
    destruct Ho as [(calib & -> & _)|(code & Hc & ->)].
    2: { unfold result, self_after. cbn [fst snd].
         split; [apply same_parameters_refl|]. split; [discriminate|].
         split; [discriminate|]. split; [auto|].
         intros e [= <-]. split; [reflexivity|]. split; [exact Hl|].
         split; [reflexivity | discriminate]. }
    destruct (utf8_decode calib) as [text|].
    2: { unfold result, self_after. cbn [fst snd].
         split; [apply same_parameters_refl|]. split; [discriminate|].
         split; [discriminate|]. split; [auto|].
         intros e [= <-]. split; [reflexivity|]. split; [exact Hl|].
         split; [reflexivity | discriminate]. }
    pose proof (parse_lines_cases py_float np_float (splitlines text) s) as H.
    cbv zeta in H. destruct H as (H1 & H2 & H3 & H4 & H5).
    destruct (parse_lines py_float np_float (splitlines text) s) as [o s1].
    unfold result, self_after. cbn [fst snd] in *.
    split; [exact H1|]. split; [exact H2|]. split; [exact H4|]. split.
    + intros _. destruct o as [u|e|]; [apply (H3 u); reflexivity| |contradiction].
      destruct (H5 e eq_refl) as (E & _). intros Hflag. congruence.
    + intros e ->. destruct (H5 e eq_refl) as (E & Hs & Hb).
      split; [reflexivity|]. split; [congruence|]. split; assumption.
Qed.

End Loading.

(** extra X4: [load_calibration_data] always ends and never touches the
    acquisition parameters.  When it raises, the flag is still unset, so the
    next call reads the flash again; nothing has been stored unless the
    failure is a non-numeric array line, in which case [bck_aT] (and any
    array parsed before the failure) has already been overwritten. *)
Theorem load_calibration_data_failure (lib : driver)
    (py_float np_float : list Z -> option float) (s : ASQESpectrometer) (h : history) :
  same_parameters s (self_after (load_calibration_data lib py_float np_float s h))
  /\ result (load_calibration_data lib py_float np_float s h) <> Diverge
  /\ (forall e,
        result (load_calibration_data lib py_float np_float s h) = Raise e ->
        _calibration_data_loaded s = false
        /\ _calibration_data_loaded
             (self_after (load_calibration_data lib py_float np_float s h)) = false
        /\ (e <> ValueError CouldNotConvertStringToFloat ->
            self_after (load_calibration_data lib py_float np_float s h) = s)
        /\ (e = ValueError CouldNotConvertStringToFloat ->
            is_Some (bck_aT (self_after (load_calibration_data lib py_float np_float s h))))).
Proof.
  pose proof (load_effect lib py_float np_float s h) as H. cbv zeta in H.
  destruct H as (H1 & H2 & _ & _ & H4). auto.
Qed.

(** extra X5: from construction on, whenever the flag is set the four
    calibration values are; every method keeps it so, whatever its outcome.
    On such an object [normalize_spectrum] and [get_calibrated_spectrum]
    never fail with a [TypeError] on a missing value. *)
Theorem cache_invariant (lib : driver) (py_float np_float : list Z -> option float) :
  cache_ok init_attributes
  /\ (forall s h,
        cache_ok s ->
        cache_ok (self_after (load_calibration_data lib py_float np_float s h)))
  /\ (forall a1 a2 a3 a4 a5 a6 a7 s h,
        cache_ok s -> cache_ok (self_after (set_parameters a1 a2 a3 a4 a5 a6 a7 s h)))
  /\ (forall fuel s h,
        cache_ok s ->
        cache_ok (self_after (normalize_spectrum lib py_float np_float fuel s h))
        /\ result (normalize_spectrum lib py_float np_float fuel s h) <> Raise TypeError)
  /\ (forall fuel s h,
        cache_ok s ->
        cache_ok (self_after (get_calibrated_spectrum lib py_float np_float fuel s h))
        /\ result (get_calibrated_spectrum lib py_float np_float fuel s h)
           <> Raise TypeError).
Proof.
  assert (forall s h, cache_ok s ->
            cache_ok (self_after (load_calibration_data lib py_float np_float s h))) as Hload.
  { intros s h Hs. pose proof (load_effect lib py_float np_float s h) as H.
    cbv zeta in H. destruct H as (_ & _ & _ & H & _). auto. }
  assert (forall A fuel (stage : ASQESpectrometer -> list Z -> outcome A) s h,
            cache_ok s ->
            (forall s1 data, cache_ok s1 -> _calibration_data_loaded s1 = true ->
                             stage s1 data <> Raise TypeError) ->
            result (load_then_capture lib py_float np_float fuel stage s h)
            <> Raise TypeError) as Hstage.
  { intros A fuel stage s h Hs Hst. unfold load_then_capture.
    pose proof (load_effect lib py_float np_float s h) as H. cbv zeta in H.
    destruct H as (_ & _ & Hte & Hok & _). specialize (Hok Hs).
    destruct (load_calibration_data lib py_float np_float s h) as [[[u|e|] s1] h1] eqn:E;
      unfold result, self_after in *; cbn [fst snd] in *;
      [|intros [= ->]; apply Hte; reflexivity|discriminate].
    destruct (capture_frame_cases lib fuel s1 h1) as [(n & _ & _ & _ & E')|[_ E']];
      rewrite E'; cbn [fst snd]; [|discriminate].
    apply Hst; [exact Hok | eapply load_ret_loaded; exact E]. }
  split; [intros H; discriminate H|]. split; [exact Hload|].
  split; [intros a1 a2 a3 a4 a5 a6 a7 s h Hs; exact Hs|]. split.
  - intros fuel s h Hs. rewrite normalize_two_steps. split.
    + rewrite load_then_capture_self. apply Hload. exact Hs.
    + apply Hstage; [exact Hs|]. intros s1 data Hok Hl. unfold normalized.
      destruct (Hok Hl) as (_ & _ & [c ->] & _).
      destruct (np_inplace PrimFloat.div (subtract_background_of data) c); discriminate.
  - intros fuel s h Hs. rewrite get_calibrated_two_steps. split.
    + rewrite load_then_capture_self. apply Hload. exact Hs.
    + apply Hstage; [exact Hs|]. intros s1 data Hok Hl. unfold stages.
      destruct (Hok Hl) as ([b ->] & _ & [c ->] & [p ->]).
      destruct (np_inplace PrimFloat.div (subtract_background_of data) c); [|discriminate].
      destruct (int_as_float (exposure_time s1)); [|discriminate].
      destruct (np_inplace PrimFloat.mul _ _); discriminate.
Qed.

(** extra X6: when loading the calibration fails, [normalize_spectrum] and
    [get_calibrated_spectrum] raise the exception of the load and stop there:
    no acquisition is triggered. *)
Theorem failed_load_no_trigger (lib : driver)
    (py_float np_float : list Z -> option float) (fuel : nat) (s s1 : ASQESpectrometer)
    (h h1 : history) (e : exn) :
  load_calibration_data lib py_float np_float s h = (Raise e, s1, h1) ->
  normalize_spectrum lib py_float np_float fuel s h = (Raise e, s1, h1)
  /\ get_calibrated_spectrum lib py_float np_float fuel s h = (Raise e, s1, h1)
  /\ exists hr, h1 = h ++ hr /\ calls is_trigger hr = 0%nat.
Proof.
  intros E. rewrite normalize_two_steps, get_calibrated_two_steps.
  unfold load_then_capture. rewrite E. split; [reflexivity|]. split; [reflexivity|].
  destruct (load_log lib py_float np_float s h) as (hr & Eh & Hhr).
  rewrite E in Eh. exists hr. split; [exact Eh|].
  apply calls_flash_only; [|exact Hhr]. intros [] He; try discriminate; reflexivity.
Qed.

(** ** Acquisition and parameters *)

(** extra X7: [capture_frame] and [subtract_background] neither read nor
    write the attributes of the object: two objects get the same outcome and
    make the same calls, and each is left as it was.  Parameters changed by
    [set_parameters] reach the device through [configure_acquisition]
    only. *)
Theorem capture_frame_ignores_attributes (lib : driver) (fuel : nat)
    (s s' : ASQESpectrometer) (h : history) :
  self_after (capture_frame lib fuel s h) = s
  /\ result (capture_frame lib fuel s h) = result (capture_frame lib fuel s' h)
  /\ history_after (capture_frame lib fuel s h) = history_after (capture_frame lib fuel s' h)
  /\ self_after (subtract_background lib fuel s h) = s
  /\ result (subtract_background lib fuel s h) = result (subtract_background lib fuel s' h)
  /\ history_after (subtract_background lib fuel s h)
     = history_after (subtract_background lib fuel s' h).
Proof.
  assert (exists o h', capture_frame lib fuel s h = (o, s, h')
                       /\ capture_frame lib fuel s' h = (o, s', h')) as (o & h' & E & E').
  { rewrite !capture_frame_run.
    destruct (first_frame lib (h ++ [TriggerAcquisition]) fuel) as [(n & Hn & H1 & H2)|H].
    - rewrite !(poll_frames_ready lib _ n fuel _ H2 H1 Hn). eexists _, _. split; reflexivity.
    - rewrite !(poll_frames_waits lib _ fuel _ H). eexists _, _. split; reflexivity. }
  unfold subtract_background, bind. rewrite E, E'.
  destruct o as [data|e|]; repeat split.
Qed.

Lemma default_latest (x : Z) (old new : option Z) :
  default (default x old) new = default x (latest new old).
Proof. destruct new, old; reflexivity. Qed.

(** extra X8: [set_parameters] makes no call to the device and leaves the
    calibration cache alone; each parameter takes the value given, or keeps
    its own when the argument is [None].  A second call overrides the first
    parameter by parameter, and a call with no argument changes nothing. *)
Theorem set_parameters_merge :
  (forall a1 a2 a3 a4 a5 a6 a7 s h,
      exists s',
        set_parameters a1 a2 a3 a4 a5 a6 a7 s h = (Ret tt, s', h)
        /\ same_calibration s s'
        /\ num_of_scans s' = default (num_of_scans s) a1
        /\ num_of_blank_scans s' = default (num_of_blank_scans s) a2
        /\ exposure_time s' = default (exposure_time s) a3
        /\ scan_mode s' = default (scan_mode s) a4
        /\ num_of_start_element s' = default (num_of_start_element s) a5
        /\ num_of_end_element s' = default (num_of_end_element s) a6
        /\ reduction_mode s' = default (reduction_mode s) a7)
  /\ (forall s h, set_parameters None None None None None None None s h = (Ret tt, s, h))
  /\ (forall a1 a2 a3 a4 a5 a6 a7 b1 b2 b3 b4 b5 b6 b7 s h,
         (set_parameters a1 a2 a3 a4 a5 a6 a7 ;;;
          set_parameters b1 b2 b3 b4 b5 b6 b7) s h
         = set_parameters (latest b1 a1) (latest b2 a2) (latest b3 a3) (latest b4 a4)
             (latest b5 a5) (latest b6 a6) (latest b7 a7) s h).
Proof.
  split; [|split].
  - intros a1 a2 a3 a4 a5 a6 a7 s h. eexists. split; [reflexivity|].
    split; [repeat split|]. repeat split.
  - intros [] h. reflexivity.
  - intros a1 a2 a3 a4 a5 a6 a7 b1 b2 b3 b4 b5 b6 b7 s h.
    unfold set_parameters, bind, setattr.
    cbn [num_of_scans num_of_blank_scans exposure_time scan_mode num_of_start_element
           num_of_end_element reduction_mode _calibration_data_loaded bck_aT wavelength
           norm_coef power_coef].
    rewrite !default_latest. reflexivity.
Qed.

Lemma c_uint_range (w x : Z) : 0 < w -> 0 <= x mod 2 ^ w < 2 ^ w.
Proof. intros H. apply Z.mod_pos_bound. apply Z.pow_pos_nonneg; lia. Qed.

(** extra X9: [configure_acquisition] makes two calls, [setAcquisitionParameters]
    then [setFrameFormat], and returns without looking at what they answer,
    leaving the object as it is.  Each argument is the attribute reduced to
    the width of its ctypes type: a value in range is sent as it is, one out
    of range wraps around without an error.  After [set_parameters] the
    values sent are the new ones. *)
Theorem configure_acquisition_sends (lib : driver) (s : ASQESpectrometer) (h : history) :
  configure_acquisition lib s h = (Ret tt, s, h ++ configuration_calls s)
  /\ (0 <= c_uint16 (num_of_scans s) < 2 ^ 16
      /\ 0 <= c_uint16 (num_of_blank_scans s) < 2 ^ 16
      /\ 0 <= c_uint8 (scan_mode s) < 2 ^ 8
      /\ 0 <= c_uint32 (exposure_time s) < 2 ^ 32
      /\ 0 <= c_uint16 (num_of_start_element s) < 2 ^ 16
      /\ 0 <= c_uint16 (num_of_end_element s) < 2 ^ 16
      /\ 0 <= c_uint8 (reduction_mode s) < 2 ^ 8)
  /\ (forall x, 0 <= x < 2 ^ 8 -> c_uint8 x = x)
  /\ (forall x, 0 <= x < 2 ^ 16 -> c_uint16 x = x)
  /\ (forall x, 0 <= x < 2 ^ 32 -> c_uint32 x = x)
  /\ (forall x, c_uint8 (x + 2 ^ 8) = c_uint8 x)
  /\ (forall x, c_uint16 (x + 2 ^ 16) = c_uint16 x)
  /\ (forall x, c_uint32 (x + 2 ^ 32) = c_uint32 x)
  /\ (forall a1 a2 a3 a4 a5 a6 a7,
         (set_parameters a1 a2 a3 a4 a5 a6 a7 ;;; configure_acquisition lib) s h
         = (Ret tt, self_after (set_parameters a1 a2 a3 a4 a5 a6 a7 s h),
            h ++ configuration_calls
                   (self_after (set_parameters a1 a2 a3 a4 a5 a6 a7 s h)))).
Proof.
  assert (forall s h, configure_acquisition lib s h = (Ret tt, s, h ++ configuration_calls s))
    as Hrun.
  { intros s0 h0. unfold configure_acquisition, bind, getattr, call, ret, configuration_calls.
    cbn [id]. rewrite <- app_assoc. reflexivity. }
  split; [apply Hrun|]. split.
  { unfold c_uint8, c_uint16, c_uint32. repeat split; apply c_uint_range; lia. }
  split; [intros x Hx; apply Z.mod_small; exact Hx|].
  split; [intros x Hx; apply Z.mod_small; exact Hx|].
  split; [intros x Hx; apply Z.mod_small; exact Hx|].
  split; [intros x; unfold c_uint8;
          rewrite <- (Z.mul_1_l (2 ^ 8)) at 1; apply Z.mod_add; lia|].
  split; [intros x; unfold c_uint16;
          rewrite <- (Z.mul_1_l (2 ^ 16)) at 1; apply Z.mod_add; lia|].
  split; [intros x; unfold c_uint32;
          rewrite <- (Z.mul_1_l (2 ^ 32)) at 1; apply Z.mod_add; lia|].
  intros a1 a2 a3 a4 a5 a6 a7. unfold bind at 1.
  change (set_parameters a1 a2 a3 a4 a5 a6 a7 s h)
    with (Ret tt, self_after (set_parameters a1 a2 a3 a4 a5 a6 a7 s h), h).
  apply Hrun.
Qed.

(** ** Normalization *)

Lemma length_subtract_background_of (data : list Z) :
  length data = 3694%nat -> length (subtract_background_of data) = 3653%nat.
Proof.
  intros H. unfold subtract_background_of. rewrite length_map, length_slice, H. reflexivity.
Qed.

(** extra X10: with the calibration loaded and arrays of 3653 entries,
    [normalize_spectrum] returns the cached wavelengths and, entry by entry,
    the corrected sample divided by its normalization coefficient, whatever
    the coefficient (no zero is singled out); [get_calibrated_spectrum] on
    the same frame returns these quotients, each multiplied by
    [power_coef / (exposure_time * bck_aT)], for an [exposure_time] that
    converts to the float [exposure]. *)
Theorem normalize_spectrum_quotients (lib : driver)
    (py_float np_float : list Z -> option float) (fuel : nat) (s : ASQESpectrometer)
    (h h' : history) (data : list Z) (n p : list float) (b exposure : float) :
  _calibration_data_loaded s = true ->
  norm_coef s = Some n -> power_coef s = Some p -> bck_aT s = Some b ->
  length n = 3653%nat -> length p = 3653%nat ->
  int_as_float (exposure_time s) = Some exposure ->
  capture_frame lib fuel s h = (Ret data, s, h') ->
  exists out cal,
    normalize_spectrum lib py_float np_float fuel s h = (Ret (wavelength s, out), s, h')
    /\ get_calibrated_spectrum lib py_float np_float fuel s h
       = (Ret (wavelength s, cal), s, h')
    /\ length out = 3653%nat
    /\ (forall i c ni,
          subtract_background_of data !! i = Some c -> n !! i = Some ni ->
          out !! i = Some (PrimFloat.div c ni))
    /\ (forall i x pi,
          out !! i = Some x -> p !! i = Some pi ->
          cal !! i = Some (PrimFloat.mul x
                             (PrimFloat.div pi (PrimFloat.mul exposure b)))).
Proof.
  intros Hl Hn Hp Hb Ln Lp He Hc.
  destruct (get_calibrated_run lib py_float np_float fuel s h h' data n p b
              Hl Hn Hp Hb Ln Lp Hc) as (Ld & E & _).
  pose proof (length_subtract_background_of data Ld) as Ls.
  exists (zip_with PrimFloat.div (subtract_background_of data) n),
    (calibrated data n p (exposure_time s) b).
  split.
  { rewrite normalize_loaded, Hc by exact Hl. unfold normalized, np_inplace.
    rewrite Hn, Ln, Ls, Nat.eqb_refl. reflexivity. }
  split; [apply (E exposure); exact He|].
  split; [rewrite length_zip_with, Ls, Ln; reflexivity|].
  split.
  - intros i c ni H1 H2. rewrite lookup_zip_with, H1, H2. reflexivity.
  - intros i x pi H1 H2. unfold calibrated.
    rewrite lookup_zip_with, H1, list_lookup_fmap, H2, (int_as_float_value _ _ He).
    reflexivity.
Qed.

(** extra X11: the coefficient arrays are used as they were loaded.  When
    [norm_coef] has neither 3653 entries nor one, [normalize_spectrum] and
    [get_calibrated_spectrum] raise a [ValueError], after the frame has been
    captured; when it has one entry, every sample is divided by it. *)
Theorem calibration_length_mismatch (lib : driver)
    (py_float np_float : list Z -> option float) (fuel : nat) (s : ASQESpectrometer)
    (h h' : history) (data : list Z) (n : list float) :
  _calibration_data_loaded s = true ->
  norm_coef s = Some n ->
  capture_frame lib fuel s h = (Ret data, s, h') ->
  (length n <> 3653%nat -> length n <> 1%nat ->
   normalize_spectrum lib py_float np_float fuel s h
   = (Raise (ValueError CouldNotBroadcast), s, h')
   /\ get_calibrated_spectrum lib py_float np_float fuel s h
      = (Raise (ValueError CouldNotBroadcast), s, h'))
  /\ (forall c, n = [c] ->
        normalize_spectrum lib py_float np_float fuel s h
        = (Ret (wavelength s,
                map (fun x => PrimFloat.div x c) (subtract_background_of data)), s, h'))
  /\ calls is_trigger h' = S (calls is_trigger h).
Proof.
  intros Hl Hn Hc.
  pose proof (capture_frame_length lib fuel s s h h' data Hc) as Ld.
  pose proof (length_subtract_background_of data Ld) as Ls.
  split; [|split].
  - intros H1 H2.
    assert (np_inplace PrimFloat.div (subtract_background_of data) n = None) as E.
    { unfold np_inplace. rewrite Ls.
      destruct (Nat.eqb_spec (length n) 3653) as [|_]; [contradiction|].
      destruct n as [|c [|c' n']]; [reflexivity | cbn in H2; lia | reflexivity]. }
    split.
    + rewrite normalize_loaded, Hc by exact Hl. unfold normalized. rewrite Hn, E. reflexivity.
    + rewrite get_calibrated_loaded, Hc by exact Hl. unfold stages. rewrite Hn, E.
      reflexivity.
  - intros c ->. rewrite normalize_loaded, Hc by exact Hl. unfold normalized, np_inplace.
    rewrite Hn, Ls. reflexivity.
  - destruct (calls_capture lib fuel s h) as (hnew & Eh & H1 & _).
    rewrite Hc in Eh. unfold history_after in Eh. cbn [snd] in Eh.
    rewrite Eh, calls_app, H1. lia.
Qed.

(** ** Construction *)

(** extra X12: construction sets the default attributes and makes one call,
    [connectToDevice]; the object is returned when the call answers 0, and
    [ConnectionError] with the status is raised otherwise, without a retry.
    A constructed object has no calibration loaded and has read no flash.
    Teardown makes one call, [disconnectDevice], and never raises. *)
Theorem constructor_connects (lib : driver) (s : ASQESpectrometer) (h : history) :
  (connectToDevice lib h = 0 ->
   __init__ lib s h = (Ret tt, init_attributes, h ++ [ConnectToDevice]))
  /\ (connectToDevice lib h <> 0 ->
      __init__ lib s h
      = (Raise (ConnectionError (connectToDevice lib h)), init_attributes,
         h ++ [ConnectToDevice]))
  /\ calls is_flash_read (history_after (__init__ lib s h)) = calls is_flash_read h
  /\ _calibration_data_loaded (self_after (__init__ lib s h)) = false
  /\ __del__ lib s h = (Ret tt, s, h ++ [DisconnectDevice]).
Proof.
  assert (__init__ lib s h
          = (if connectToDevice lib h =? 0 then Ret tt
             else Raise (ConnectionError (connectToDevice lib h)),
             init_attributes, h ++ [ConnectToDevice])) as E.
  { unfold __init__, connect, bind, setattr, call, raise, ret.
    destruct (connectToDevice lib h =? 0); reflexivity. }
  rewrite E. split; [intros E0; rewrite E0; reflexivity|].
  split; [intros E0; apply Z.eqb_neq in E0; rewrite E0; reflexivity|].
  unfold history_after, self_after. cbn [fst snd].
  split; [rewrite calls_app; unfold calls at 2; cbn; lia|].
  split; reflexivity.
Qed.

(** ** The samples that count *)

Lemma slice_ext {A} (lo hi : Z) (l1 l2 : list A) :
  length l1 = length l2 ->
  (forall j, (j < Z.to_nat (hi - lo))%nat ->
             l1 !! (Z.to_nat lo + j)%nat = l2 !! (Z.to_nat lo + j)%nat) ->
  slice lo hi l1 = slice lo hi l2.
Proof.
  intros Hlen H. apply list_eq. intros j.
  destruct (Nat.lt_ge_cases j (Z.to_nat (hi - lo))) as [Hj|Hj].
  - rewrite !lookup_slice by exact Hj. apply H. exact Hj.
  - unfold slice. rewrite !lookup_take_ge by exact Hj. reflexivity.
Qed.

(** extra X13: [subtract_background] reads the samples at indices 15 to 30,
    32 to 3684 and 3686 to 3691 only: two frames that agree there give the
    same result, whatever their samples at indices 0 to 14, 31, 3685, 3692
    and 3693. *)
Theorem subtract_background_samples_used (d1 d2 : list Z) :
  length d1 = 3694%nat -> length d2 = 3694%nat ->
  (forall i, sample_used i -> d1 !! i = d2 !! i) ->
  subtract_background_of d1 = subtract_background_of d2.
Proof.
  intros L1 L2 H.
  assert (slice 15 31 d1 = slice 15 31 d2) as E1.
  { apply slice_ext; [congruence|]. intros j Hj. apply H. left.
    change (Z.to_nat (31 - 15)) with 16%nat in Hj. change (Z.to_nat 15) with 15%nat. lia. }
  assert (slice 3686 3692 d1 = slice 3686 3692 d2) as E2.
  { apply slice_ext; [congruence|]. intros j Hj. apply H. right. right.
    change (Z.to_nat (3692 - 3686)) with 6%nat in Hj.
    change (Z.to_nat 3686) with 3686%nat. lia. }
  assert (slice 32 3685 d1 = slice 32 3685 d2) as E3.
  { apply slice_ext; [congruence|]. intros j Hj. apply H. right. left.
    change (Z.to_nat (3685 - 32)) with 3653%nat in Hj. change (Z.to_nat 32) with 32%nat. lia. }
  unfold subtract_background_of, background. rewrite E1, E2, E3. reflexivity.
Qed.

Lemma sum_Z_replicate (n : nat) (v : Z) : sum_Z (replicate n v) = Z.of_nat n * v.
Proof.
  unfold sum_Z. induction n as [|n IH]; [reflexivity|].
  cbn [replicate foldr]. rewrite IH. lia.
Qed.

Lemma slice_replicate {A} (lo hi : Z) (n : nat) (x : A) :
  slice lo hi (replicate n x)
  = replicate (Z.to_nat (hi - lo) `min` (n - Z.to_nat lo)) x.
Proof. unfold slice. rewrite drop_replicate, take_replicate. reflexivity. Qed.

Lemma map_replicate {A B} (f : A -> B) (n : nat) (x : A) :
  map f (replicate n x) = replicate n (f x).
Proof. induction n as [|n IH]; [reflexivity|]. cbn [replicate map]. rewrite IH. reflexivity. Qed.

Lemma elem_of_count_from (n : nat) :
  forall z v, z <= v < z + Z.of_nat n -> In v (count_from n z).
Proof.
  induction n as [|n IH]; intros z v H; [lia|].
  cbn [count_from In]. destruct (Z.eq_dec z v) as [->|Hne]; [left; reflexivity|].
  right. apply IH. lia.
Qed.

(** Every 16-bit value, one by one. *)
Lemma flat_residues_zero :
  forallb (fun v => is_zero (flat_residue v)) (count_from (Z.to_nat 65536) 0) = true.
Proof. vm_compute. reflexivity. Qed.

Lemma flat_residue_zero (v : Z) : 0 <= v < 65536 -> flat_residue v = 0%float.
Proof.
  intros H. pose proof flat_residues_zero as F. rewrite forallb_forall in F.
  assert (0 <= v < 0 + Z.of_nat (Z.to_nat 65536)) as Hv by lia.
  specialize (F v (elem_of_count_from _ 0 v Hv)).
  apply FloatAxioms.Prim2SF_inj. unfold is_zero in F.
  destruct (FloatOps.Prim2SF (flat_residue v)) as [[|]| | |]; try discriminate F. reflexivity.
Qed.

(** extra X14: a frame whose 3694 samples all hold the same 16-bit value
    comes out of [subtract_background] as 3653 zeros, exactly: in float64 the
    mean of the 16 and of the 6 background samples, and their half sum, give
    the value back without a rounding error. *)
Theorem subtract_background_flat (v : Z) :
  0 <= v < 65536 ->
  subtract_background_of (replicate 3694 v) = replicate 3653 0%float.
Proof.
  intros H. unfold subtract_background_of, background, np_mean.
  rewrite !slice_replicate, !sum_Z_replicate, !length_replicate.
  change (Z.to_nat (31 - 15) `min` (3694 - Z.to_nat 15))%nat with 16%nat.
  change (Z.to_nat (3692 - 3686) `min` (3694 - Z.to_nat 3686))%nat with 6%nat.
  change (Z.to_nat (3685 - 32) `min` (3694 - Z.to_nat 32))%nat with 3653%nat.
  change (float_of_Z (Z.of_nat 16)) with 16%float.
  change (float_of_Z (Z.of_nat 6)) with 6%float.
  change (Z.of_nat 16) with 16. change (Z.of_nat 6) with 6.
  rewrite map_replicate. fold (flat_residue v).
  rewrite (flat_residue_zero v H). reflexivity.
Qed.

(** ** Instances *)

Lemma read_flash_size_witness :
  exists data,
    read_flash (bench flash_one_line 0 [] 0) 2 6 init_attributes []
    = (Ret data, init_attributes, [ReadFlash 6 2 6])
    /\ Z.of_nat (length data) = 6
    /\ data !! 1%nat = Some xff
    /\ data !! 2%nat = Some x00.
Proof.
  destruct (proj1 (read_flash_size (bench flash_one_line 0 [] 0) 2 6 init_attributes []
                     ltac:(lia)) eq_refl) as (data & E & L & H1 & H2).
  exists data. split; [exact E|]. split; [exact L|]. split.
  - apply H1; [lia | reflexivity].
  - apply H2; [vm_compute; lia | lia].
Defined.

Lemma read_calibration_file_failed_read_witness :
  read_calibration_file (worn flash_inside 1000 7) init_attributes []
  = (Raise (RuntimeError 7), init_attributes, [] ++ flash_reads 2).
Proof.
  apply (read_calibration_file_failed_read (worn flash_inside 1000 7) init_attributes []
           (flash_chunk flash_inside) 1).
  - lia.
  - intros j Hj. assert (j = 0%nat) as -> by lia.
    split; vm_compute; reflexivity.
  - vm_compute. discriminate.
Defined.

Lemma failed_load_no_trigger_witness :
  normalize_spectrum (bench flash_one_line 0 uniform_frame 0) digits_float digits_float 1
    init_attributes []
  = (Raise (ValueError FailedToParseBckAT), init_attributes, [ReadFlash 1000 0 1000])
  /\ get_calibrated_spectrum (bench flash_one_line 0 uniform_frame 0) digits_float
       digits_float 1 init_attributes []
     = (Raise (ValueError FailedToParseBckAT), init_attributes, [ReadFlash 1000 0 1000]).
Proof.
  destruct (failed_load_no_trigger (bench flash_one_line 0 uniform_frame 0) digits_float
              digits_float 1 init_attributes init_attributes [] [ReadFlash 1000 0 1000]
              (ValueError FailedToParseBckAT)) as (H1 & H2 & _).
  - vm_compute. reflexivity.
  - split; [exact H1 | exact H2].
Defined.

Lemma normalize_spectrum_quotients_witness :
  exists out cal,
    normalize_spectrum (bench [] 0 uniform_frame 0) digits_float digits_float 1
      (flat_object 500 1 2 4) []
    = (Ret (wavelength (flat_object 500 1 2 4), out), flat_object 500 1 2 4,
       [TriggerAcquisition; Sleep 25; GetStatus; GetFrame 3694 65535])
    /\ get_calibrated_spectrum (bench [] 0 uniform_frame 0) digits_float digits_float 1
         (flat_object 500 1 2 4) []
       = (Ret (wavelength (flat_object 500 1 2 4), cal), flat_object 500 1 2 4,
          [TriggerAcquisition; Sleep 25; GetStatus; GetFrame 3694 65535])
    /\ length out = 3653%nat.
Proof.
  destruct (normalize_spectrum_quotients (bench [] 0 uniform_frame 0) digits_float
              digits_float 1 (flat_object 500 1 2 4) []
              [TriggerAcquisition; Sleep 25; GetStatus; GetFrame 3694 65535]
              uniform_frame (replicate 3653 2%float) (replicate 3653 4%float) 1%float
              500%float
              eq_refl eq_refl eq_refl eq_refl (length_replicate _ _) (length_replicate _ _)
              eq_refl)
    as (out & cal & E1 & E2 & L & _).
  - vm_compute. reflexivity.
  - exists out, cal. split; [exact E1|]. split; [exact E2 | exact L].
Defined.

Lemma calibration_length_mismatch_witness :
  normalize_spectrum (bench [] 0 uniform_frame 0) digits_float digits_float 1
    (with_calibration 1 [] [] [] init_attributes) []
  = (Raise (ValueError CouldNotBroadcast), with_calibration 1 [] [] [] init_attributes,
     [TriggerAcquisition; Sleep 25; GetStatus; GetFrame 3694 65535])
  /\ get_calibrated_spectrum (bench [] 0 uniform_frame 0) digits_float digits_float 1
       (with_calibration 1 [] [] [] init_attributes) []
     = (Raise (ValueError CouldNotBroadcast), with_calibration 1 [] [] [] init_attributes,
        [TriggerAcquisition; Sleep 25; GetStatus; GetFrame 3694 65535]).
Proof.
  apply (calibration_length_mismatch (bench [] 0 uniform_frame 0) digits_float digits_float
           1 (with_calibration 1 [] [] [] init_attributes) []
           [TriggerAcquisition; Sleep 25; GetStatus; GetFrame 3694 65535] uniform_frame []
           eq_refl eq_refl).
  - vm_compute. reflexivity.
  - discriminate.
  - discriminate.
Defined.

Lemma subtract_background_samples_used_witness :
  subtract_background_of uniform_frame = subtract_background_of glitched_frame.
Proof.
  apply subtract_background_samples_used.
  - apply length_replicate.
  - unfold glitched_frame. rewrite !length_insert. apply length_replicate.
  - intros i Hi. unfold glitched_frame, sample_used in *.
    rewrite !list_lookup_insert_ne by lia. reflexivity.
Defined.

Lemma subtract_background_flat_witness :
  subtract_background_of uniform_frame = replicate 3653 0%float.
Proof. apply (subtract_background_flat 1000). lia. Defined.
